(** * The post store of app.py: a shallow embedding and its properties

    The program is a Flask application whose handlers read the whole
    collection of posts from [blog_posts.json], change it in memory and write
    it back.  The embedding follows the source function by function:

    - the values [json.load] returns are the type [json];
    - Python's exceptions are the type [exn], a computation that may raise is
      an [outcome];
    - the file and the debug output of [save_blog_posts] are the [world], and
      a handler is a function of the world (the monad [M]);
    - [json.load] and [json.dump] belong to Python's library, not to the
      program: they are parameters of the development, with the one law the
      program relies on (what was dumped loads back). *)

From Stdlib Require Import ZArith Lia Ascii DecimalString DecimalZ DecimalPos.
From stdpp Require Import base list strings.

Local Open Scope string_scope.
Local Open Scope list_scope.
Set Warnings "-register-all".

(** ** Values *)

(** What [json.load] builds: [None], [bool], [int], [str], [list], [dict].
    A Python [dict] keeps its keys in insertion order and [json.dump] writes
    them in that order, so a dict is an association list.  Floating point
    numbers are left out: the program computes nothing with them. *)
Inductive json : Type :=
| JNull
| JBool (b : bool)
| JInt (n : Z)
| JStr (s : string)
| JList (xs : list json)
| JDict (kvs : list (string * json)).

(** The exceptions the handlers can let escape. *)
Inductive exn : Type :=
| JSONDecodeError
| KeyError
| IndexError
| TypeError
| AttributeError.

Inductive outcome (A : Type) : Type :=
| Ok (a : A)
| Raise (e : exn).
Arguments Ok {A} a.
Arguments Raise {A} e.

Definition obind {A B} (c : outcome A) (k : A -> outcome B) : outcome B :=
  match c with
  | Ok a => k a
  | Raise e => Raise e
  end.

Notation "x <~ c ;; k" := (obind c (fun x => k))
  (at level 100, c at next level, right associativity).

(** ** Python's operations on these values *)

Module Py.

(** [d[k]] and [d.get(k)] on a dict: the first binding of the key. *)
Fixpoint lookup (kvs : list (string * json)) (k : string) : option json :=
  match kvs with
  | [] => None
  | (k', v) :: rest => if String.eqb k' k then Some v else lookup rest k
  end.

(** [d[k] = v] on a dict: an existing key keeps its place, a new key goes
    to the end. *)
Fixpoint store (kvs : list (string * json)) (k : string) (v : json)
  : list (string * json) :=
  match kvs with
  | [] => [(k, v)]
  | (k', v') :: rest =>
      if String.eqb k' k then (k', v) :: rest else (k', v') :: store rest k v
  end.

(** [o[k]] for a string [k]. Only a dict can be subscripted by a string. *)
Definition getitem (o : json) (k : string) : outcome json :=
  match o with
  | JDict kvs =>
      match lookup kvs k with
      | Some v => Ok v
      | None => Raise KeyError
      end
  | _ => Raise TypeError
  end.

(** [o.get(k, d)]: only a dict has [get]. *)
Definition get (o : json) (k : string) (d : json) : outcome json :=
  match o with
  | JDict kvs => Ok (default d (lookup kvs k))
  | _ => Raise AttributeError
  end.

(** [k] occurs in [s]. *)
Fixpoint occurs (k s : string) : bool :=
  String.prefix k s ||
  match s with
  | EmptyString => false
  | String _ rest => occurs k rest
  end.

(** [k in o] for a string [k]: a key of a dict, an element of a list, a part
    of a string. *)
Definition contains (o : json) (k : string) : outcome bool :=
  match o with
  | JDict kvs => Ok (bool_decide (is_Some (lookup kvs k)))
  | JList xs =>
      Ok (existsb (fun x => match x with JStr t => String.eqb t k | _ => false end) xs)
  | JStr s => Ok (occurs k s)
  | _ => Raise TypeError
  end.

(** [o[k] = v] for a string [k]. *)
Definition setitem (o : json) (k : string) (v : json) : outcome json :=
  match o with
  | JDict kvs => Ok (JDict (store kvs k v))
  | _ => Raise TypeError
  end.

(** [v == n] for an int [n]. In Python [True == 1] and [False == 0]. *)
Definition eq_int (v : json) (n : Z) : bool :=
  match v with
  | JInt m => Z.eqb m n
  | JBool b => Z.eqb (if b then 1 else 0) n
  | _ => false
  end.

(** [v + 1], as [v += 1] computes it. *)
Definition add1 (v : json) : outcome json :=
  match v with
  | JInt m => Ok (JInt (m + 1))
  | JBool b => Ok (JInt ((if b then 1 else 0) + 1))
  | _ => Raise TypeError
  end.

Fixpoint chars (s : string) : list json :=
  match s with
  | EmptyString => []
  | String c rest => JStr (String c EmptyString) :: chars rest
  end.

(** What [for p in o] goes through: the elements of a list, the keys of a
    dict, the characters of a string. *)
Definition iter (o : json) : outcome (list json) :=
  match o with
  | JList xs => Ok xs
  | JDict kvs => Ok (map (fun kv => JStr (fst kv)) kvs)
  | JStr s => Ok (chars s)
  | _ => Raise TypeError
  end.

(** [len(o)]. *)
Definition len (o : json) : outcome Z :=
  match o with
  | JList xs => Ok (Z.of_nat (length xs))
  | JDict kvs => Ok (Z.of_nat (length kvs))
  | JStr s => Ok (Z.of_nat (String.length s))
  | _ => Raise TypeError
  end.

(** [o.append(x)]: only a list has [append]. *)
Definition append (o : json) (x : json) : outcome json :=
  match o with
  | JList xs => Ok (JList (xs ++ [x]))
  | _ => Raise AttributeError
  end.

(** [o[i]] for an index [i] that [enumerate(o)] has produced. *)
Definition getindex (o : json) (i : nat) : outcome json :=
  match o with
  | JList xs =>
      match xs !! i with
      | Some x => Ok x
      | None => Raise IndexError
      end
  | JDict _ => Raise KeyError
  | JStr s =>
      match chars s !! i with
      | Some x => Ok x
      | None => Raise IndexError
      end
  | _ => Raise TypeError
  end.

(** The object [o] after its [i]th element, reached through an alias, has
    become [x].  Only the elements of a list are shared with it: the keys
    of a dict and the characters of a string are immutable strings. *)
Definition aliased (o : json) (i : nat) (x : json) : json :=
  match o with
  | JList xs => JList (<[i := x]> xs)
  | _ => o
  end.

End Py.

(** ** The data model *)

(** The value a record holds under a key, if it is a record and has the key. *)
Definition field (p : json) (k : string) : option json :=
  match p with
  | JDict kvs => Py.lookup kvs k
  | _ => None
  end.

(** The id of a post: the integer under ["id"]. *)
Definition post_id_of (p : json) : option Z :=
  match field p "id" with
  | Some (JInt n) => Some n
  | _ => None
  end.

Definition has_id (p : json) : Prop := is_Some (post_id_of p).

(** The post [p] is one a request for [post_id] is about. *)
Definition matches (post_id : Z) (p : json) : Prop := post_id_of p = Some post_id.

Global Instance matches_dec post_id p : Decision (matches post_id p).
Proof. unfold matches. apply _. Defined.

(** A post record: an integer ["id"], a ["title"] and a ["content"]; the
    ["likes"] of a record that has them are an integer (["author"] and
    ["likes"] may be missing from older records). *)
Definition is_post (p : json) : bool :=
  match post_id_of p, field p "title", field p "content" with
  | Some _, Some _, Some _ =>
      match field p "likes" with
      | None | Some (JInt _) => true
      | Some _ => false
      end
  | _, _, _ => false
  end.

(** The author of a post as a reader sees it: ["Anonymous"] for a record
    without the key, as [post.get("author", "Anonymous")] reads it. *)
Definition author_of (p : json) : json :=
  default (JStr "Anonymous") (field p "author").

(** The post [p] after one like, in the words of the specification: its
    likes are one more, and 1 when it had none. *)
Definition liked (p : json) : json :=
  match p with
  | JDict kvs =>
      JDict (Py.store kvs "likes"
               (JInt (match Py.lookup kvs "likes" with
                      | Some (JInt n) => n + 1
                      | _ => 1
                      end)))
  | _ => p
  end.

(** The first post of [xs] with the id, and where it is. *)
Definition first_match (xs : list json) (post_id : Z) : option (nat * json) :=
  list_find (matches post_id) xs.

(** ** The world and the monad of the handlers *)

(** [file] is the content of [blog_posts.json] ([None] when the file does not
    exist); [stdout] is what [save_blog_posts] has printed, oldest first: one
    entry, the collection saved, per save.  The file can always be read and
    written: a disk that refuses is not part of the world. *)
Record world : Type := World {
  file : option string;
  stdout : list json
}.

Definition M (A : Type) : Type := world -> outcome A * world.

Definition ret {A} (a : A) : M A := fun w => (Ok a, w).

Definition bind {A B} (c : M A) (k : A -> M B) : M B :=
  fun w =>
    match c w with
    | (Ok a, w') => k a w'
    | (Raise e, w') => (Raise e, w')
    end.

Definition lift {A} (c : outcome A) : M A := fun w => (c, w).

Notation "x <- c ;; k" := (bind c (fun x => k))
  (at level 100, c at next level, right associativity).

(** ** Requests and responses *)

Inductive http_method : Type := GET | POST.

(** [request.method] and [request.form]. *)
Record request : Type := Request {
  method : http_method;
  form : list (string * string)
}.

Fixpoint form_lookup (f : list (string * string)) (k : string) : option string :=
  match f with
  | [] => None
  | (k', v) :: rest => if String.eqb k' k then Some v else form_lookup rest k
  end.

(** [request.form.get(k)]: [None] when the field is missing. *)
Definition form_get (r : request) (k : string) : json :=
  match form_lookup (form r) k with
  | Some s => JStr s
  | None => JNull
  end.

(** [request.form.get(k, d)]. *)
Definition form_get_default (r : request) (k : string) (d : json) : json :=
  match form_lookup (form r) k with
  | Some s => JStr s
  | None => d
  end.

Inductive response : Type :=
| Redirect (endpoint : string)
| Render (template : string) (context : option json)
| Status (body : string) (code : Z).

Definition not_found : response := Status "Post not found" 404.

(** ** A text format

    [json.dump] and [json.load] are parameters of the program below.  This
    module is one pair of them, used to run the program on examples: the
    compact JSON text of a value, and a reader of that text. *)

Module JsonText.

Definition dquote : ascii := "034"%char.
Definition backslash : ascii := "092"%char.

(** A string literal: the quote and the backslash are escaped. *)
Fixpoint escape (s : string) : string :=
  match s with
  | EmptyString => EmptyString
  | String c rest =>
      if Ascii.eqb c dquote || Ascii.eqb c backslash
      then String backslash (String c (escape rest))
      else String c (escape rest)
  end.

Definition quote (s : string) : string :=
  String dquote (escape s +:+ String dquote EmptyString).

(** The text of a literal after its opening quote, up to the closing one,
    and what follows it. *)
Fixpoint unquote (s : string) : option (string * string) :=
  match s with
  | EmptyString => None
  | String c rest =>
      if Ascii.eqb c dquote then Some (EmptyString, rest)
      else if Ascii.eqb c backslash then
        match rest with
        | EmptyString => None
        | String c' rest' =>
            match unquote rest' with
            | Some (t, after) => Some (String c' t, after)
            | None => None
            end
        end
      else
        match unquote rest with
        | Some (t, after) => Some (String c t, after)
        | None => None
        end
  end.

Definition is_num_char (c : ascii) : bool :=
  Ascii.eqb c "-" || (Nat.leb 48 (nat_of_ascii c) && Nat.leb (nat_of_ascii c) 57).

Definition dump_int (n : Z) : string := NilZero.string_of_int (Z.to_int n).

(** The longest prefix of digits and signs, and the rest. *)
Fixpoint span_num (s : string) : string * string :=
  match s with
  | EmptyString => (EmptyString, EmptyString)
  | String c rest =>
      if is_num_char c then
        let (digits, after) := span_num rest in (String c digits, after)
      else (EmptyString, s)
  end.

Definition parse_int (s : string) : option (Z * string) :=
  let (digits, after) := span_num s in
  match NilZero.int_of_string digits with
  | Some d => Some (Z.of_int d, after)
  | None => None
  end.

Fixpoint strip_prefix (p s : string) : option string :=
  match p, s with
  | EmptyString, _ => Some s
  | String a p', String b s' => if Ascii.eqb a b then strip_prefix p' s' else None
  | String _ _, EmptyString => None
  end.

Fixpoint dump_items (f : json -> string) (l : list json) : string :=
  match l with
  | [] => "]"
  | x :: l' => String "," (f x +:+ dump_items f l')
  end.

Fixpoint dump_members (f : json -> string) (l : list (string * json)) : string :=
  match l with
  | [] => "}"
  | (k, v) :: l' => String "," (quote k +:+ String ":" (f v +:+ dump_members f l'))
  end.

Fixpoint dump (v : json) : string :=
  match v with
  | JNull => "null"
  | JBool b => if b then "true" else "false"
  | JInt n => dump_int n
  | JStr s => quote s
  | JList [] => "[]"
  | JList (x :: rest) => String "[" (dump x +:+ dump_items dump rest)
  | JDict [] => "{}"
  | JDict ((k, v) :: rest) =>
      String "{" (quote k +:+ String ":" (dump v +:+ dump_members dump rest))
  end.

(** A key and its colon. *)
Definition parse_key (s : string) : option (string * string) :=
  match s with
  | String c rest =>
      if Ascii.eqb c dquote then
        match unquote rest with
        | Some (k, String c' after) =>
            if Ascii.eqb c' ":" then Some (k, after) else None
        | _ => None
        end
      else None
  | EmptyString => None
  end.

Fixpoint parse (fuel : nat) (s : string) {struct fuel} : option (json * string) :=
  match fuel with
  | 0 => None
  | S fuel =>
      match s with
      | EmptyString => None
      | String c rest =>
          if is_num_char c then
            match parse_int s with
            | Some (n, after) => Some (JInt n, after)
            | None => None
            end
          else if Ascii.eqb c dquote then
            match unquote rest with
            | Some (t, after) => Some (JStr t, after)
            | None => None
            end
          else if Ascii.eqb c "[" then
            match strip_prefix "]" rest with
            | Some after => Some (JList [], after)
            | None =>
                match parse fuel rest with
                | Some (x, after) =>
                    match parse_items fuel after with
                    | Some (xs, after') => Some (JList (x :: xs), after')
                    | None => None
                    end
                | None => None
                end
            end
          else if Ascii.eqb c "{" then
            match strip_prefix "}" rest with
            | Some after => Some (JDict [], after)
            | None =>
                match parse_key rest with
                | Some (k, after) =>
                    match parse fuel after with
                    | Some (v, after') =>
                        match parse_members fuel after' with
                        | Some (kvs, after'') => Some (JDict ((k, v) :: kvs), after'')
                        | None => None
                        end
                    | None => None
                    end
                | None => None
                end
            end
          else
            match strip_prefix "null" s with
            | Some after => Some (JNull, after)
            | None =>
                match strip_prefix "true" s with
                | Some after => Some (JBool true, after)
                | None =>
                    match strip_prefix "false" s with
                    | Some after => Some (JBool false, after)
                    | None => None
                    end
                end
            end
      end
  end
with parse_items (fuel : nat) (s : string) {struct fuel}
  : option (list json * string) :=
  match fuel with
  | 0 => None
  | S fuel =>
      match s with
      | EmptyString => None
      | String c rest =>
          if Ascii.eqb c "]" then Some ([], rest)
          else if Ascii.eqb c "," then
            match parse fuel rest with
            | Some (x, after) =>
                match parse_items fuel after with
                | Some (xs, after') => Some (x :: xs, after')
                | None => None
                end
            | None => None
            end
          else None
      end
  end
with parse_members (fuel : nat) (s : string) {struct fuel}
  : option (list (string * json) * string) :=
  match fuel with
  | 0 => None
  | S fuel =>
      match s with
      | EmptyString => None
      | String c rest =>
          if Ascii.eqb c "}" then Some ([], rest)
          else if Ascii.eqb c "," then
            match parse_key rest with
            | Some (k, after) =>
                match parse fuel after with
                | Some (v, after') =>
                    match parse_members fuel after' with
                    | Some (kvs, after'') => Some ((k, v) :: kvs, after'')
                    | None => None
                    end
                | None => None
                end
            | None => None
            end
          else None
      end
  end.

(** The text is one value and nothing else. *)
Definition load (s : string) : option json :=
  match parse (S (String.length s)) s with
  | Some (v, EmptyString) => Some v
  | _ => None
  end.

(** What the proof that [load] reads back what [dump] writes speaks of: a
    text of digits and signs only; a text that does not go on with a digit
    or a sign, so that a number before it ends where it should; a value
    whose text, followed by such a text, is read back with enough fuel. *)
Fixpoint all_num (s : string) : bool :=
  match s with
  | EmptyString => true
  | String c rest => is_num_char c && all_num rest
  end.

Definition tail_ok (rest : string) : Prop :=
  match rest with
  | EmptyString => True
  | String c _ => is_num_char c = false
  end.

Definition parses (v : json) : Prop :=
  forall fuel rest,
    String.length (dump v) < fuel -> tail_ok rest ->
    parse fuel (dump v +:+ rest) = Some (v, rest).

End JsonText.

(** ** Example data *)

Module Example.

(** A post as [add] writes it, and an older record without author and
    likes. *)
Definition post1 : json :=
  JDict [("id", JInt 1); ("title", JStr "A"); ("content", JStr "a1");
         ("author", JStr "Ann"); ("likes", JInt 0)].

Definition post2 : json :=
  JDict [("id", JInt 2); ("title", JStr "B"); ("content", JStr "b1")].

Definition posts : list json := [post1; post2].

(** No file yet; a file with the two posts; a file that is not JSON. *)
Definition empty : world := World None [].
Definition stored : world := World (Some (JsonText.dump (JList posts))) [].
Definition broken : world := World (Some "not json") [].

Definition form_a : request :=
  Request POST [("title", "A"); ("content", "a1"); ("author", "Ann")].
Definition form_b : request :=
  Request POST [("title", "B"); ("content", "b1")].
Definition form_c : request :=
  Request POST [("title", "C"); ("content", "c1"); ("author", "Cy")].

Definition title_only : request := Request POST [("title", "T")].

(** A GET request; records that lack a key or hold likes that are no
    number; files that hold them; a file that holds a number. *)
Definition get_form : request := Request GET [].

Definition untitled : json := JDict [("id", JInt 3); ("content", JStr "c1")].
Definition no_id : json := JDict [("title", JStr "E")].

Definition only_post2 : world := World (Some (JsonText.dump (JList [post2]))) [].
Definition stored_untitled : world :=
  World (Some (JsonText.dump (JList [post1; untitled]))) [].
Definition stored_no_id : world :=
  World (Some (JsonText.dump (JList [post1; post2; no_id]))) [].
Definition scalar : world := World (Some (JsonText.dump (JInt 3))) [].

End Example.

(** ** The program *)

Section Store.

(** [json.dump(v, file, indent=4)] as the text it writes and
    [json.load(file)] as a function of the text it reads, [None] when the
    text is not JSON. *)
Variable json_dump : json -> string.
Variable json_load : string -> option json.

(** The law of the library the program relies on. *)
Hypothesis json_load_dump : forall v, json_load (json_dump v) = Some v.

Definition load_blog_posts : M json :=
  fun w =>
    match file w with
    | Some text =>
        match json_load text with
        | Some v => (Ok v, w)
        | None => (Raise JSONDecodeError, w)
        end
    | None => (Ok (JList []), w)
    end.

Definition save_blog_posts (posts : json) : M unit :=
  fun w =>
    (Ok tt, {| file := Some (json_dump posts); stdout := stdout w ++ [posts] |}).

(** The loop of [fetch_post_by_id]: the first element whose ["id"] equals
    [post_id]. *)
Fixpoint first_with_id (xs : list json) (post_id : Z) : outcome (option json) :=
  match xs with
  | [] => Ok None
  | post :: rest =>
      v <~ Py.getitem post "id" ;;
      if Py.eq_int v post_id then Ok (Some post) else first_with_id rest post_id
  end.

Definition fetch_post_by_id (post_id : Z) : M (option json) :=
  blog_posts <- load_blog_posts ;;
  xs <- lift (Py.iter blog_posts) ;;
  lift (first_with_id xs post_id).

Definition index : M response :=
  blog_posts <- load_blog_posts ;;
  ret (Render "index.html" (Some blog_posts)).

(** The record [add] builds, [n] being [len(blog_posts)]. *)
Definition new_post (n : Z) (title content author : json) : json :=
  JDict [("id", JInt (n + 1));
         ("title", title);
         ("content", content);
         ("author", author);
         ("likes", JInt 0)].

Definition add (req : request) : M response :=
  match method req with
  | POST =>
      let title := form_get req "title" in
      let content := form_get req "content" in
      let author := form_get_default req "author" (JStr "Anonymous") in
      blog_posts <- load_blog_posts ;;
      n <- lift (Py.len blog_posts) ;;
      blog_posts <- lift (Py.append blog_posts (new_post n title content author)) ;;
      _ <- save_blog_posts blog_posts ;;
      ret (Redirect "index")
  | GET => ret (Render "add.html" None)
  end.

(** [next((index for (index, p) in enumerate(xs) if p["id"] == post_id), None)],
    counting from [from]. *)
Fixpoint index_with_id (xs : list json) (post_id : Z) (from : nat)
  : outcome (option nat) :=
  match xs with
  | [] => Ok None
  | p :: rest =>
      v <~ Py.getitem p "id" ;;
      if Py.eq_int v post_id then Ok (Some from)
      else index_with_id rest post_id (S from)
  end.

(** [blog_posts[i][k] = v], the element being shared with the list. *)
Definition set_field (blog_posts : json) (i : nat) (k : string) (v : json)
  : outcome json :=
  p <~ Py.getindex blog_posts i ;;
  p' <~ Py.setitem p k v ;;
  Ok (Py.aliased blog_posts i p').

(** [post] comes from a load of its own ([fetch_post_by_id] reads the file
    again), so the writes to [blog_posts[post_index]] do not show in it. *)
Definition update (post_id : Z) (req : request) : M response :=
  blog_posts <- load_blog_posts ;;
  post <- fetch_post_by_id post_id ;;
  match post with
  | None => ret not_found
  | Some post =>
      match method req with
      | POST =>
          xs <- lift (Py.iter blog_posts) ;;
          post_index <- lift (index_with_id xs post_id 0) ;;
          match post_index with
          | Some i =>
              old_title <- lift (Py.getitem post "title") ;;
              blog_posts <-
                lift (set_field blog_posts i "title"
                        (form_get_default req "title" old_title)) ;;
              old_content <- lift (Py.getitem post "content") ;;
              blog_posts <-
                lift (set_field blog_posts i "content"
                        (form_get_default req "content" old_content)) ;;
              old_author <- lift (Py.get post "author" (JStr "Anonymous")) ;;
              blog_posts <-
                lift (set_field blog_posts i "author"
                        (form_get_default req "author" old_author)) ;;
              _ <- save_blog_posts blog_posts ;;
              ret (Redirect "index")
          | None => ret (Redirect "index")
          end
      | GET => ret (Render "update.html" (Some post))
      end
  end.

(** [[post for post in xs if post["id"] != post_id]]. *)
Fixpoint without_id (xs : list json) (post_id : Z) : outcome (list json) :=
  match xs with
  | [] => Ok []
  | post :: rest =>
      v <~ Py.getitem post "id" ;;
      kept <~ without_id rest post_id ;;
      Ok (if Py.eq_int v post_id then kept else post :: kept)
  end.

Definition delete (post_id : Z) : M response :=
  blog_posts <- load_blog_posts ;;
  xs <- lift (Py.iter blog_posts) ;;
  kept <- lift (without_id xs post_id) ;;
  _ <- save_blog_posts (JList kept) ;;
  ret (Redirect "index").

(** The body of [like] after the post was found:
    [if "likes" in post: post["likes"] += 1 else: post["likes"] = 1]. *)
Definition bump_likes (post : json) : outcome json :=
  has <~ Py.contains post "likes" ;;
  if (has : bool) then
    old <~ Py.getitem post "likes" ;;
    new <~ Py.add1 old ;;
    Py.setitem post "likes" new
  else Py.setitem post "likes" (JInt 1).

(** [next((p for p in blog_posts if p["id"] == post_id), None)] hands out
    the element itself, so what [like] changes is the element of
    [blog_posts] at the index of the first match. *)
Definition like (post_id : Z) : M response :=
  blog_posts <- load_blog_posts ;;
  xs <- lift (Py.iter blog_posts) ;;
  found <- lift (index_with_id xs post_id 0) ;;
  match found with
  | None => ret not_found
  | Some i =>
      post <- lift (Py.getindex (JList xs) i) ;;
      post' <- lift (bump_likes post) ;;
      _ <- save_blog_posts (Py.aliased blog_posts i post') ;;
      ret (Redirect "index")
  end.

(** *** The store's operations, as the requests that reach them *)

Inductive call : Type :=
| Create (req : request)
| Update (post_id : Z) (req : request)
| Delete (post_id : Z)
| Like (post_id : Z).

Definition handle (c : call) : M response :=
  match c with
  | Create req => add req
  | Update post_id req => update post_id req
  | Delete post_id => delete post_id
  | Like post_id => like post_id
  end.

(** The server handles the requests one after the other; a handler that
    raises leaves the world as it was when it raised, and the next request
    is served from there. *)
Fixpoint serve (cs : list call) (w : world) : list (outcome response) * world :=
  match cs with
  | [] => ([], w)
  | c :: rest =>
      let (r, w') := handle c w in
      let (rs, w'') := serve rest w' in
      (r :: rs, w'')
  end.

(** The world after a save of [posts] in the world [w]. *)
Definition saved (posts : json) (w : world) : world :=
  {| file := Some (json_dump posts); stdout := stdout w ++ [posts] |}.

(** The persisted collection of the world [w] is [v]: that is what a load
    returns. *)
Definition persisted (w : world) (v : json) : Prop :=
  load_blog_posts w = (Ok v, w).

(** The post the [n]th Create of a run makes of its request (counting the
    creates from 0). *)
Definition created (n : nat) (req : request) : json :=
  new_post (Z.of_nat n) (form_get req "title") (form_get req "content")
    (form_get_default req "author" (JStr "Anonymous")).

(** The posts are numbered 1, 2, ... in the order of the collection. *)
Definition numbered (xs : list json) : Prop :=
  forall n p, xs !! n = Some p -> post_id_of p = Some (Z.of_nat n + 1)%Z.

(** What holds of the store as long as nothing is deleted: it persists a
    list of posts numbered from 1. *)
Definition well_numbered (w : world) : Prop :=
  exists xs, persisted w (JList xs) /\ Forall is_post xs /\ numbered xs.

Definition is_delete (c : call) : bool :=
  match c with
  | Delete _ => true
  | _ => false
  end.

(** [Save(Load())]: what was loaded is saved as it is. *)
Definition save_load : M unit :=
  posts <- load_blog_posts ;;
  save_blog_posts posts.

(** A computation that leaves the world as it finds it, whatever it
    returns. *)
Definition quiet {A} (c : M A) : Prop :=
  forall w r w', c w = (r, w') -> w' = w.



(** The likes of a post as a reader counts them: 0 for a record without
    the key. *)
Definition likes_of (p : json) : Z :=
  match field p "likes" with
  | Some (JInt l) => l
  | _ => 0%Z
  end.

(** ** Properties *)

Lemma save_blog_posts_saved posts w :
  save_blog_posts posts w = (Ok tt, saved posts w).
Proof. reflexivity. Qed.

Lemma persisted_saved posts w : persisted (saved posts w) posts.
Proof. unfold persisted, load_blog_posts. simpl. by rewrite json_load_dump. Qed.

Lemma bind_Ok {A B} (c : M A) (k : A -> M B) w a w' :
  c w = (Ok a, w') -> bind c k w = k a w'.
Proof. unfold bind. by intros ->. Qed.

Lemma bind_lift_Ok {A B} (c : outcome A) (k : A -> M B) w a :
  c = Ok a -> bind (lift c) k w = k a w.
Proof. by intros ->. Qed.

Lemma getitem_id p n : post_id_of p = Some n -> Py.getitem p "id" = Ok (JInt n).
Proof.
  unfold post_id_of, field, Py.getitem. destruct p; try discriminate.
  destruct (Py.lookup kvs "id") as [[]|]; try discriminate. congruence.
Qed.

Lemma eq_int_matches p n post_id :
  post_id_of p = Some n ->
  Py.eq_int (JInt n) post_id = bool_decide (matches post_id p).
Proof.
  intros Hp. simpl. destruct (Z.eqb_spec n post_id) as [->|Hne].
  - by rewrite bool_decide_eq_true_2.
  - rewrite bool_decide_eq_false_2; [done|]. unfold matches. congruence.
Qed.

Lemma first_with_id_find xs post_id :
  Forall has_id xs ->
  first_with_id xs post_id = Ok (snd <$> first_match xs post_id).
Proof.
  unfold first_match. induction 1 as [|p xs [n Hp] _ IH]; [done|].
  cbn [first_with_id list_find]. rewrite (getitem_id _ _ Hp). cbn [obind].
  rewrite (eq_int_matches _ _ post_id Hp), IH.
  destruct (decide (matches post_id p)) as [Hm|Hm].
  - by rewrite bool_decide_eq_true_2.
  - rewrite bool_decide_eq_false_2 by done.
    by destruct (list_find (matches post_id) xs) as [[]|].
Qed.

Lemma index_with_id_find xs post_id from :
  Forall has_id xs ->
  index_with_id xs post_id from
  = Ok ((fun r => from + fst r) <$> first_match xs post_id).
Proof.
  unfold first_match. intros Hxs. revert from.
  induction Hxs as [|p xs [n Hp] _ IH]; intros from; [done|].
  cbn [index_with_id list_find]. rewrite (getitem_id _ _ Hp). cbn [obind].
  rewrite (eq_int_matches _ _ post_id Hp), IH.
  destruct (decide (matches post_id p)) as [Hm|Hm].
  - rewrite bool_decide_eq_true_2 by done. simpl. do 3 f_equal. lia.
  - rewrite bool_decide_eq_false_2 by done.
    destruct (list_find (matches post_id) xs) as [[i q]|]; simpl; [|done].
    do 3 f_equal. lia.
Qed.

Lemma without_id_filter xs post_id :
  Forall has_id xs ->
  without_id xs post_id = Ok (filter (fun p => ~ matches post_id p) xs).
Proof.
  induction 1 as [|p xs [n Hp] _ IH]; [done|].
  cbn [without_id]. rewrite (getitem_id _ _ Hp). cbn [obind].
  rewrite IH. cbn [obind]. rewrite (eq_int_matches _ _ post_id Hp), filter_cons.
  destruct (decide (matches post_id p)) as [Hm|Hm].
  - rewrite bool_decide_eq_true_2 by done. by rewrite decide_False by tauto.
  - rewrite bool_decide_eq_false_2 by done. by rewrite decide_True.
Qed.

Lemma first_match_None xs post_id :
  Forall (fun p => ~ matches post_id p) xs -> first_match xs post_id = None.
Proof. intros H. by apply (list_find_None (matches post_id)). Qed.

Lemma fetch_post_by_id_find w xs post_id :
  persisted w (JList xs) -> Forall has_id xs ->
  fetch_post_by_id post_id w = (Ok (snd <$> first_match xs post_id), w).
Proof.
  intros Hw Hxs. unfold fetch_post_by_id.
  rewrite (bind_Ok _ _ _ _ _ Hw). cbn [Py.iter].
  rewrite (bind_lift_Ok _ _ _ xs eq_refl).
  by rewrite first_with_id_find.
Qed.

(** C7: when no persisted file exists, Load returns an empty sequence and
    not an error; when the file exists and its content is not well-formed
    JSON, Load fails with the parse error ([JSONDecodeError]).  In both
    cases the world is left as it was. *)
Theorem load_blog_posts_missing_or_malformed w :
  (file w = None -> load_blog_posts w = (Ok (JList []), w)) /\
  (forall text,
      file w = Some text -> json_load text = None ->
      load_blog_posts w = (Raise JSONDecodeError, w)).
Proof.
  unfold load_blog_posts. split.
  - by intros ->.
  - by intros text -> ->.
Qed.

(** C8: on a persisted collection of posts, FetchById returns the first
    post, in the order of the collection, whose id is the given one, and
    the not-found value [None], without raising, when no post has it. *)
Theorem fetch_post_by_id_first w xs post_id :
  persisted w (JList xs) -> Forall has_id xs ->
  exists r,
    fetch_post_by_id post_id w = (Ok r, w) /\
    (forall p,
        r = Some p <->
        exists i, xs !! i = Some p /\ matches post_id p /\
                  forall j q, xs !! j = Some q -> j < i -> ~ matches post_id q) /\
    (r = None <-> Forall (fun p => ~ matches post_id p) xs).
Proof.
  intros Hw Hxs. exists (snd <$> first_match xs post_id).
  split; [by apply fetch_post_by_id_find|]. unfold first_match. split.
  - intros p. split.
    + destruct (list_find _ xs) as [[i q]|] eqn:Hf; [|done].
      intros [= ->]. exists i. by apply list_find_Some in Hf.
    + intros (i & Hi). apply (list_find_Some (matches post_id)) in Hi.
      by rewrite Hi.
  - rewrite <- list_find_None.
    apply fmap_None.
Qed.

(** C10: when no post of the persisted collection has the given id, Update
    answers not-found and leaves the world as it was: the file keeps its
    content and nothing was saved, whatever the request. *)
Theorem update_absent_not_found w xs post_id req :
  persisted w (JList xs) -> Forall has_id xs ->
  Forall (fun p => ~ matches post_id p) xs ->
  update post_id req w = (Ok not_found, w).
Proof.
  intros Hw Hxs Hno. unfold update.
  rewrite (bind_Ok _ _ _ _ _ Hw).
  rewrite (bind_Ok _ _ _ _ _ (fetch_post_by_id_find _ _ post_id Hw Hxs)).
  by rewrite (first_match_None _ _ Hno).
Qed.

(** C5: when no post of the persisted collection has the given id, Like
    answers not-found and leaves the world as it was: the file keeps its
    content and nothing was saved. *)
Theorem like_absent_not_found w xs post_id :
  persisted w (JList xs) -> Forall has_id xs ->
  Forall (fun p => ~ matches post_id p) xs ->
  like post_id w = (Ok not_found, w).
Proof.
  intros Hw Hxs Hno. unfold like.
  rewrite (bind_Ok _ _ _ _ _ Hw). cbn [Py.iter].
  rewrite (bind_lift_Ok _ _ _ xs eq_refl).
  rewrite (bind_lift_Ok _ _ _ _ (index_with_id_find _ post_id 0 Hxs)).
  by rewrite (first_match_None _ _ Hno).
Qed.

(** C6: Delete saves the collection without the posts whose id is the given
    one, whether or not there was one: the file holds the posts kept, in
    their order, and the save shows on the output.  When no post has the
    id, the posts kept are all the posts. *)
Theorem delete_removes_and_saves w xs post_id :
  persisted w (JList xs) -> Forall has_id xs ->
  exists w',
    delete post_id w = (Ok (Redirect "index"), w') /\
    file w' = Some (json_dump (JList (filter (fun p => ~ matches post_id p) xs))) /\
    stdout w' = (stdout w ++ [JList (filter (fun p => ~ matches post_id p) xs)])%list /\
    persisted w' (JList (filter (fun p => ~ matches post_id p) xs)) /\
    (Forall (fun p => ~ matches post_id p) xs ->
     filter (fun p => ~ matches post_id p) xs = xs).
Proof.
  intros Hw Hxs.
  exists (saved (JList (filter (fun p => ~ matches post_id p) xs)) w).
  split; [|split; [done|split; [done|split]]].
  - unfold delete. rewrite (bind_Ok _ _ _ _ _ Hw). cbn [Py.iter].
    rewrite (bind_lift_Ok _ _ _ xs eq_refl).
    by rewrite (bind_lift_Ok _ _ _ _ (without_id_filter _ post_id Hxs)).
  - apply persisted_saved.
  - intros Hno. clear Hw Hxs. induction Hno as [|p ps Hp _ IH]; [done|].
    rewrite filter_cons_True by done. by f_equal.
Qed.

(** C9: saving what a load returned keeps the persisted collection: a
    second load returns the same value, and doing it once more writes the
    same text again. *)
Theorem save_load_idempotent w v :
  persisted w v ->
  exists w1 w2,
    save_load w = (Ok tt, w1) /\ persisted w1 v /\
    save_load w1 = (Ok tt, w2) /\ persisted w2 v /\ file w2 = file w1.
Proof.
  intros Hw. exists (saved v w), (saved v (saved v w)).
  assert (H1 : persisted (saved v w) v) by apply persisted_saved.
  unfold save_load. rewrite (bind_Ok _ _ _ _ _ Hw), (bind_Ok _ _ _ _ _ H1).
  repeat split; try done. apply persisted_saved.
Qed.

Lemma serve_cons c cs w r w' rs w'' :
  handle c w = (r, w') -> serve cs w' = (rs, w'') ->
  serve (c :: cs) w = (r :: rs, w'').
Proof. cbn [serve]. by intros -> ->. Qed.

Lemma add_appends w xs req :
  method req = POST -> persisted w (JList xs) ->
  add req w
  = (Ok (Redirect "index"), saved (JList (xs ++ [created (length xs) req])) w).
Proof.
  intros Hm Hw. unfold add. rewrite Hm.
  by rewrite (bind_Ok _ _ _ _ _ Hw).
Qed.

Lemma serve_creates reqs :
  Forall (fun req => method req = POST) reqs ->
  forall w xs,
    persisted w (JList xs) ->
    exists w',
      serve (Create <$> reqs) w
      = (replicate (length reqs) (Ok (Redirect "index")), w') /\
      persisted w'
        (JList (xs ++ imap (fun n req => created (length xs + n) req) reqs)).
Proof.
  induction 1 as [|req reqs Hm _ IH]; intros w xs Hw.
  - exists w. split; [done|]. by rewrite app_nil_r.
  - destruct (IH (saved (JList (xs ++ [created (length xs) req])) w)
                (xs ++ [created (length xs) req])) as (w' & Hrun & Hw').
    { apply persisted_saved. }
    exists w'. split.
    + cbn [fmap list_fmap serve handle]. rewrite (add_appends _ _ _ Hm Hw).
      change (list_fmap request call Create reqs) with (Create <$> reqs).
      by rewrite Hrun.
    + rewrite imap_cons, Nat.add_0_r, cons_middle, app_assoc.
      rewrite length_app in Hw'. cbn [length] in Hw'.
      erewrite imap_ext; [exact Hw'|]. intros n r _. cbn. f_equal. lia.
Qed.

(** C2: on a store that is empty at the start, the Nth of N Create calls
    in a row makes the post with id N and 0 likes: every call succeeds,
    and the persisted collection ends as the posts created, in the order
    of the calls, the Nth of them with id N and likes 0. *)
Theorem creates_number_from_one w reqs :
  persisted w (JList []) ->
  Forall (fun req => method req = POST) reqs ->
  exists w',
    serve (Create <$> reqs) w
    = (replicate (length reqs) (Ok (Redirect "index")), w') /\
    persisted w' (JList (imap created reqs)) /\
    forall n req,
      reqs !! n = Some req ->
      imap created reqs !! n = Some (created n req) /\
      field (created n req) "id" = Some (JInt (Z.of_nat n + 1)) /\
      field (created n req) "likes" = Some (JInt 0).
Proof.
  intros Hw Hreqs.
  destruct (serve_creates reqs Hreqs w [] Hw) as (w' & Hrun & Hw').
  exists w'. split; [done|]. split; [done|].
  intros n req Hn. split; [|done].
  by rewrite list_lookup_imap, Hn.
Qed.

(** *** Records: reading a key after a write *)

Lemma lookup_store_eq kvs k v : Py.lookup (Py.store kvs k v) k = Some v.
Proof.
  induction kvs as [|[k' v'] kvs IH]; simpl.
  - by rewrite String.eqb_refl.
  - destruct (String.eqb k' k) eqn:E; simpl; rewrite E; [done|apply IH].
Qed.

Lemma lookup_store_ne kvs k k' v :
  k <> k' -> Py.lookup (Py.store kvs k v) k' = Py.lookup kvs k'.
Proof.
  intros Hne. induction kvs as [|[k0 v0] kvs IH]; simpl.
  - by apply String.eqb_neq in Hne as ->.
  - destruct (String.eqb k0 k) eqn:E; simpl.
    + apply String.eqb_eq in E as ->.
      by apply String.eqb_neq in Hne as ->.
    + by rewrite IH.
Qed.

Ltac store_simpl :=
  repeat (rewrite lookup_store_eq || rewrite lookup_store_ne by congruence).

Lemma is_post_has_id p : is_post p -> has_id p.
Proof.
  unfold is_post, has_id. by destruct (post_id_of p).
Qed.

Lemma posts_have_ids xs : Forall is_post xs -> Forall has_id xs.
Proof. intros H. eapply Forall_impl; [exact H|]. apply is_post_has_id. Qed.

Lemma first_match_lookup xs post_id i p :
  first_match xs post_id = Some (i, p) -> xs !! i = Some p /\ matches post_id p.
Proof.
  intros H. apply (list_find_Some (matches post_id)) in H. tauto.
Qed.

(** A post that takes the place of the first match and has its id is the
    first match of the new collection. *)
Lemma first_match_insert xs post_id i p p' :
  first_match xs post_id = Some (i, p) -> matches post_id p' ->
  first_match (<[i := p']> xs) post_id = Some (i, p').
Proof.
  unfold first_match. intros H Hp'.
  apply (list_find_Some (matches post_id)) in H as (Hi & _ & Hbefore).
  apply list_find_insert_Some. right. left.
  repeat split; [by eapply lookup_lt_Some|done|done].
Qed.

Lemma set_field_dict xs i kvs k v :
  xs !! i = Some (JDict kvs) ->
  set_field (JList xs) i k v = Ok (JList (<[i := JDict (Py.store kvs k v)]> xs)).
Proof. intros Hi. unfold set_field. simpl. by rewrite Hi. Qed.

(** What a POST to [update] does when the first post with the id is the
    record [kvs] at index [i]: three writes to that record, then the save. *)
Lemma update_found w xs post_id req i kvs t0 c0 :
  persisted w (JList xs) -> Forall has_id xs ->
  first_match xs post_id = Some (i, JDict kvs) ->
  Py.lookup kvs "title" = Some t0 ->
  Py.lookup kvs "content" = Some c0 ->
  method req = POST ->
  update post_id req w
  = (Ok (Redirect "index"),
     saved
       (JList
          (<[i := JDict
                    (Py.store
                       (Py.store
                          (Py.store kvs "title" (form_get_default req "title" t0))
                          "content" (form_get_default req "content" c0))
                       "author"
                       (form_get_default req "author"
                          (default (JStr "Anonymous") (Py.lookup kvs "author"))))]>
             xs))
       w).
Proof.
  intros Hw Hxs Hf Ht Hc Hm. unfold update.
  rewrite (bind_Ok _ _ _ _ _ Hw).
  rewrite (bind_Ok _ _ _ _ _ (fetch_post_by_id_find _ _ post_id Hw Hxs)).
  rewrite Hf. cbn [fmap option_fmap option_map snd]. rewrite Hm. cbn [Py.iter].
  rewrite (bind_lift_Ok _ _ _ xs eq_refl).
  rewrite (bind_lift_Ok _ _ _ _ (index_with_id_find _ post_id 0 Hxs)).
  rewrite Hf. cbn [fmap option_fmap option_map fst Nat.add].
  destruct (first_match_lookup _ _ _ _ Hf) as [Hi _].
  assert (Hlt : i < length xs) by by eapply lookup_lt_Some.
  cbn [Py.getitem Py.get]. rewrite Ht, Hc.
  rewrite (bind_lift_Ok _ _ _ t0 eq_refl).
  rewrite (bind_lift_Ok _ _ _ _ (set_field_dict _ _ _ "title" _ Hi)).
  rewrite (bind_lift_Ok _ _ _ c0 eq_refl).
  rewrite (bind_lift_Ok _ _ _ _
             (set_field_dict _ _ _ "content" _ (list_lookup_insert_eq _ _ _ Hlt))).
  rewrite list_insert_insert_eq.
  rewrite (bind_lift_Ok _ _ _ _ eq_refl).
  rewrite (bind_lift_Ok _ _ _ _
             (set_field_dict _ _ _ "author" _ (list_lookup_insert_eq _ _ _ Hlt))).
  rewrite list_insert_insert_eq. reflexivity.
Qed.

(** C3: Update with only the title supplied, on a collection of posts with
    a post of the given id: the first such post gets the new title; its
    content, its author (["Anonymous"] for a record that had none), its
    likes and every other key stay as they were, and so do all the other
    posts. *)
Theorem update_title_only w xs post_id req i p t :
  persisted w (JList xs) -> Forall is_post xs ->
  first_match xs post_id = Some (i, p) ->
  method req = POST ->
  form_lookup (form req) "title" = Some t ->
  form_lookup (form req) "content" = None ->
  form_lookup (form req) "author" = None ->
  exists p' w',
    update post_id req w = (Ok (Redirect "index"), w') /\
    persisted w' (JList (<[i := p']> xs)) /\
    field p' "title" = Some (JStr t) /\
    field p' "content" = field p "content" /\
    author_of p' = author_of p /\
    (forall a, field p "author" = Some a -> field p' "author" = Some a) /\
    field p' "likes" = field p "likes" /\
    (forall k, k <> "title" -> k <> "author" -> field p' k = field p k) /\
    length (<[i := p']> xs) = length xs /\
    (forall j, j <> i -> <[i := p']> xs !! j = xs !! j).
Proof.
  intros Hw Hxs Hf Hm Ht Hc Ha.
  destruct (first_match_lookup _ _ _ _ Hf) as [Hi _].
  assert (Hp : is_post p).
  { eapply Forall_forall in Hxs; [exact Hxs|]. by eapply list_elem_of_lookup_2. }
  unfold is_post in Hp.
  destruct (post_id_of p) as [n|] eqn:Hid; [|done].
  destruct (field p "title") as [t0|] eqn:Ht0; [|done].
  destruct (field p "content") as [c0|] eqn:Hc0; [|done].
  destruct p as [| | | | |kvs]; try discriminate. cbn [field] in *.
  eexists _, _. split.
  { apply (update_found _ _ _ _ _ _ _ _ Hw (posts_have_ids _ Hxs) Hf Ht0 Hc0 Hm). }
  unfold form_get_default, author_of. rewrite Ht, Hc, Ha. cbn [field].
  split; [apply persisted_saved|]. cbn [field].
  repeat split; store_simpl.
  - done.
  - done.
  - by destruct (Py.lookup kvs "author").
  - by intros a ->.
  - done.
  - intros k Hk1 Hk2. destruct (decide (k = "content")) as [->|Hk3].
    + by store_simpl.
    + by store_simpl.
  - apply length_insert.
  - intros j Hj. by apply list_lookup_insert_ne.
Qed.

(** *** Like *)

(** On a post, the body of [like] computes what the specification says. *)
Lemma bump_likes_liked p : is_post p -> bump_likes p = Ok (liked p).
Proof.
  unfold is_post, bump_likes. destruct p as [| | | | |kvs]; try done.
  destruct (post_id_of (JDict kvs)), (field (JDict kvs) "title"),
    (field (JDict kvs) "content"); try done.
  cbn [field Py.contains Py.getitem liked obind].
  destruct (Py.lookup kvs "likes") as [[]|]; try done.
Qed.

Lemma field_liked_ne p k : k <> "likes" -> field (liked p) k = field p k.
Proof.
  intros Hk. destruct p as [| | | | |kvs]; try done.
  cbn [liked field]. by store_simpl.
Qed.

Lemma matches_liked post_id p : matches post_id p -> matches post_id (liked p).
Proof. unfold matches, post_id_of. by rewrite field_liked_ne. Qed.

Lemma is_post_liked p : is_post p -> is_post (liked p).
Proof.
  unfold is_post, post_id_of. rewrite !field_liked_ne by done.
  destruct p as [| | | | |kvs]; try done. cbn [liked field]. store_simpl.
  by destruct (Py.lookup kvs "id") as [[]|], (Py.lookup kvs "title"),
    (Py.lookup kvs "content").
Qed.

Lemma like_found w xs post_id i p :
  persisted w (JList xs) -> Forall is_post xs ->
  first_match xs post_id = Some (i, p) ->
  like post_id w
  = (Ok (Redirect "index"), saved (JList (<[i := liked p]> xs)) w).
Proof.
  intros Hw Hxs Hf. unfold like.
  destruct (first_match_lookup _ _ _ _ Hf) as [Hi _].
  assert (Hp : is_post p).
  { eapply Forall_forall in Hxs; [exact Hxs|]. by eapply list_elem_of_lookup_2. }
  rewrite (bind_Ok _ _ _ _ _ Hw). cbn [Py.iter].
  rewrite (bind_lift_Ok _ _ _ xs eq_refl).
  rewrite (bind_lift_Ok _ _ _ _
             (index_with_id_find _ post_id 0 (posts_have_ids _ Hxs))).
  rewrite Hf. cbn [fmap option_fmap option_map fst Nat.add Py.getindex].
  rewrite Hi. rewrite (bind_lift_Ok _ _ _ p eq_refl).
  by rewrite (bind_lift_Ok _ _ _ _ (bump_likes_liked _ Hp)).
Qed.

(** C4: Like on a collection of posts with a post of the given id adds
    exactly 1 to the likes of the first such post, and gives it 1 like when
    it had no likes field; nothing else of the post changes.  Hence a
    second Like on a post that had 0 likes leaves it with 2. *)
Theorem like_increments w xs post_id i p :
  persisted w (JList xs) -> Forall is_post xs ->
  first_match xs post_id = Some (i, p) ->
  exists p' w',
    like post_id w = (Ok (Redirect "index"), w') /\
    persisted w' (JList (<[i := p']> xs)) /\
    (forall n, field p "likes" = Some (JInt n) ->
               field p' "likes" = Some (JInt (n + 1))) /\
    (field p "likes" = None -> field p' "likes" = Some (JInt 1)) /\
    (forall k, k <> "likes" -> field p' k = field p k) /\
    (field p "likes" = Some (JInt 0) ->
     exists p'' w'',
       like post_id w' = (Ok (Redirect "index"), w'') /\
       persisted w'' (JList (<[i := p'']> xs)) /\
       field p'' "likes" = Some (JInt 2) /\
       (forall k, k <> "likes" -> field p'' k = field p k)).
Proof.
  intros Hw Hxs Hf.
  destruct (first_match_lookup _ _ _ _ Hf) as [Hi Hmatch].
  assert (Hp : is_post p).
  { eapply Forall_forall in Hxs; [exact Hxs|]. by eapply list_elem_of_lookup_2. }
  assert (Hlikes : forall q n, is_post q -> field q "likes" = Some (JInt n) ->
                          field (liked q) "likes" = Some (JInt (n + 1))).
  { intros q m Hq. destruct q as [| | | | |kvs]; try done.
    cbn [liked field]. intros ->. by store_simpl. }
  exists (liked p), (saved (JList (<[i := liked p]> xs)) w).
  split; [by apply like_found|]. split; [apply persisted_saved|].
  split; [by auto|]. split.
  { destruct p as [| | | | |kvs]; try done. cbn [liked field]. intros ->.
    by store_simpl. }
  split; [intros k Hk; by apply field_liked_ne|].
  intros H0. exists (liked (liked p)).
  exists (saved (JList (<[i := liked (liked p)]> xs))
            (saved (JList (<[i := liked p]> xs)) w)).
  split.
  - rewrite <- (list_insert_insert_eq xs i (liked (liked p)) (liked p)).
    apply like_found.
    + apply persisted_saved.
    + apply Forall_insert; [done|by apply is_post_liked].
    + eapply first_match_insert; [done|by apply matches_liked].
  - split; [apply persisted_saved|]. split.
    + apply (Hlikes (liked p) 1%Z); [by apply is_post_liked|].
      by apply (Hlikes p 0%Z).
    + intros k Hk. by rewrite !field_liked_ne.
Qed.

(** *** Ids after a delete *)

Lemma post_id_of_created n req : post_id_of (created n req) = Some (Z.of_nat n + 1)%Z.
Proof. reflexivity. Qed.

(** C1: the ids of the persisted collection do not stay distinct.  From an
    empty store, two creates, the deletion of post 1 and one more create
    all succeed and leave two posts, both with id 2: the create after the
    delete counts one post and numbers the new one 2, the id of the post
    that is left. *)
Theorem create_after_delete_repeats_id w r1 r2 r3 :
  persisted w (JList []) ->
  method r1 = POST -> method r2 = POST -> method r3 = POST ->
  exists w',
    serve [Create r1; Create r2; Delete 1; Create r3] w
    = (replicate 4 (Ok (Redirect "index")), w') /\
    persisted w' (JList [created 1 r2; created 1 r3]) /\
    post_id_of (created 1 r2) = Some 2%Z /\
    post_id_of (created 1 r3) = Some 2%Z /\
    ~ NoDup (post_id_of <$> [created 1 r2; created 1 r3]).
Proof.
  intros Hw H1 H2 H3.
  set (w1 := saved (JList [created 0 r1]) w).
  set (w2 := saved (JList [created 0 r1; created 1 r2]) w1).
  set (w3 := saved (JList [created 1 r2]) w2).
  set (w4 := saved (JList [created 1 r2; created 1 r3]) w3).
  assert (Hd : delete 1 w2 = (Ok (Redirect "index"), w3)).
  { unfold delete.
    rewrite (bind_Ok _ _ _ _ _ (persisted_saved _ w1 : persisted w2 _)).
    cbn [Py.iter]. rewrite (bind_lift_Ok _ _ _ _ eq_refl).
    rewrite (bind_lift_Ok _ _ _ [created 1 r2]); [done|].
    rewrite without_id_filter; [done|].
    repeat constructor; by eexists. }
  exists w4. split; [|split; [apply persisted_saved|]].
  - pose proof (add_appends _ _ _ H1 Hw) as Ha1.
    pose proof (add_appends _ _ _ H2 (persisted_saved _ w : persisted w1 _)) as Ha2.
    pose proof (add_appends _ _ _ H3 (persisted_saved _ w2 : persisted w3 _)) as Ha3.
    cbn [app length] in Ha1, Ha2, Ha3.
    apply (serve_cons (Create r1) _ _ _ _ _ _ Ha1),
      (serve_cons (Create r2) _ _ _ _ _ _ Ha2),
      (serve_cons (Delete 1) _ _ _ _ _ _ Hd),
      (serve_cons (Create r3) _ _ _ _ _ _ Ha3).
    reflexivity.
  - split; [done|]. split; [done|].
    intros Hnd. apply NoDup_cons_1_1 in Hnd. apply Hnd. by left.
Qed.

(** *** Ids when nothing is deleted *)

Lemma numbered_distinct xs : numbered xs -> NoDup (post_id_of <$> xs).
Proof.
  intros Hxs. apply NoDup_alt. intros i j x Hi Hj.
  apply list_lookup_fmap_Some in Hi as (p & -> & Hp).
  apply list_lookup_fmap_Some in Hj as (q & Hq' & Hq).
  rewrite (Hxs _ _ Hp), (Hxs _ _ Hq) in Hq'. injection Hq' as Hq'. lia.
Qed.

Lemma numbered_insert xs i p p' :
  numbered xs -> xs !! i = Some p -> post_id_of p' = post_id_of p ->
  numbered (<[i := p']> xs).
Proof.
  intros Hxs Hi Hid n q Hn.
  apply list_lookup_insert_Some in Hn as [(<- & <- & _)|[_ Hn]].
  - rewrite Hid. by apply Hxs.
  - by apply Hxs.
Qed.

Lemma numbered_created xs req :
  numbered xs -> numbered (xs ++ [created (length xs) req]).
Proof.
  intros Hxs n q Hn. apply lookup_snoc_Some in Hn as [[_ Hn]|[-> <-]].
  - by apply Hxs.
  - reflexivity.
Qed.

Lemma is_post_created n req : is_post (created n req).
Proof. exact I. Qed.

Lemma update_found_get w xs post_id req i p :
  persisted w (JList xs) -> Forall has_id xs ->
  first_match xs post_id = Some (i, p) -> method req = GET ->
  update post_id req w = (Ok (Render "update.html" (Some p)), w).
Proof.
  intros Hw Hxs Hf Hm. unfold update.
  rewrite (bind_Ok _ _ _ _ _ Hw).
  rewrite (bind_Ok _ _ _ _ _ (fetch_post_by_id_find _ _ post_id Hw Hxs)).
  rewrite Hf. cbn [fmap option_fmap option_map snd]. by rewrite Hm.
Qed.

Lemma update_no_match w xs post_id req :
  persisted w (JList xs) -> Forall has_id xs ->
  first_match xs post_id = None ->
  update post_id req w = (Ok not_found, w).
Proof.
  intros Hw Hxs Hf. unfold update.
  rewrite (bind_Ok _ _ _ _ _ Hw).
  rewrite (bind_Ok _ _ _ _ _ (fetch_post_by_id_find _ _ post_id Hw Hxs)).
  by rewrite Hf.
Qed.

Lemma like_no_match w xs post_id :
  persisted w (JList xs) -> Forall has_id xs ->
  first_match xs post_id = None ->
  like post_id w = (Ok not_found, w).
Proof.
  intros Hw Hxs Hf. unfold like.
  rewrite (bind_Ok _ _ _ _ _ Hw). cbn [Py.iter].
  rewrite (bind_lift_Ok _ _ _ xs eq_refl).
  rewrite (bind_lift_Ok _ _ _ _ (index_with_id_find _ post_id 0 Hxs)).
  by rewrite Hf.
Qed.

(** A request other than a delete keeps the store well numbered, whatever
    it answers. *)
Lemma handle_keeps_well_numbered c w r w' :
  is_delete c = false -> well_numbered w -> handle c w = (r, w') ->
  well_numbered w'.
Proof.
  intros Hc (xs & Hw & Hxs & Hnum) Hrun.
  pose proof (posts_have_ids _ Hxs) as Hids.
  destruct c as [req|post_id req|post_id|post_id]; [| | done |]; cbn [handle] in Hrun.
  - (* Create *)
    destruct (method req) eqn:Hm.
    + unfold add in Hrun. rewrite Hm in Hrun. injection Hrun as _ <-.
      by exists xs.
    + rewrite (add_appends _ _ _ Hm Hw) in Hrun. injection Hrun as _ <-.
      exists (xs ++ [created (length xs) req]).
      split; [apply persisted_saved|]. split; [|by apply numbered_created].
      apply Forall_app. split; [done|]. by repeat constructor.
  - (* Update *)
    destruct (first_match xs post_id) as [[i p]|] eqn:Hf.
    + destruct (first_match_lookup _ _ _ _ Hf) as [Hi _].
      destruct (method req) eqn:Hm.
      { rewrite (update_found_get _ _ _ _ _ _ Hw Hids Hf Hm) in Hrun.
        injection Hrun as _ <-. by exists xs. }
      assert (Hp : is_post p).
      { eapply Forall_forall in Hxs; [exact Hxs|]. by eapply list_elem_of_lookup_2. }
      pose proof Hp as Hp'. unfold is_post, post_id_of in Hp'.
      destruct p as [| | | | |kvs]; try done. cbn [field] in Hp'.
      destruct (Py.lookup kvs "id") as [[| |n| | |]|] eqn:Hid; try done.
      destruct (Py.lookup kvs "title") as [t0|] eqn:Ht0; [|done].
      destruct (Py.lookup kvs "content") as [c0|] eqn:Hc0; [|done].
      rewrite (update_found _ _ _ _ _ _ _ _ Hw Hids Hf Ht0 Hc0 Hm) in Hrun.
      injection Hrun as _ <-. eexists. split; [apply persisted_saved|]. split.
      * apply Forall_insert; [done|].
        unfold is_post, post_id_of. cbn [field]. store_simpl. rewrite Hid.
        by store_simpl.
      * eapply numbered_insert; [done|done|].
        unfold post_id_of. cbn [field]. by store_simpl.
    + rewrite (update_no_match _ _ _ req Hw Hids Hf) in Hrun.
      injection Hrun as _ <-. by exists xs.
  - (* Like *)
    destruct (first_match xs post_id) as [[i p]|] eqn:Hf.
    + destruct (first_match_lookup _ _ _ _ Hf) as [Hi Hmatch].
      assert (Hp : is_post p).
      { eapply Forall_forall in Hxs; [exact Hxs|]. by eapply list_elem_of_lookup_2. }
      rewrite (like_found _ _ _ _ _ Hw Hxs Hf) in Hrun. injection Hrun as _ <-.
      eexists. split; [apply persisted_saved|]. split.
      * apply Forall_insert; [done|]. by apply is_post_liked.
      * eapply numbered_insert; [done|done|].
        unfold post_id_of. by rewrite field_liked_ne.
    + rewrite (like_no_match _ _ _ Hw Hids Hf) in Hrun.
      injection Hrun as _ <-. by exists xs.
Qed.

Lemma serve_keeps_well_numbered cs :
  forallb (fun c => negb (is_delete c)) cs = true ->
  forall w, well_numbered w -> well_numbered (snd (serve cs w)).
Proof.
  induction cs as [|c cs IH]; intros Hcs w Hw; [done|].
  cbn [forallb] in Hcs. apply andb_true_iff in Hcs as [Hc Hcs].
  apply negb_true_iff in Hc. cbn [serve].
  destruct (handle c w) as [r w1] eqn:Hrun.
  specialize (IH Hcs w1 (handle_keeps_well_numbered _ _ _ _ Hc Hw Hrun)).
  by destruct (serve cs w1).
Qed.

(** X1: the ids stay distinct as long as nothing is deleted: after any requests
    to create, update and like on a store that was empty, whatever they
    answered, the persisted collection is a list of posts with the ids 1, 2,
    ... in this order. *)
Theorem ids_distinct_without_delete w cs :
  persisted w (JList []) ->
  forallb (fun c => negb (is_delete c)) cs = true ->
  exists xs,
    persisted (snd (serve cs w)) (JList xs) /\
    numbered xs /\ NoDup (post_id_of <$> xs).
Proof.
  intros Hw Hcs.
  destruct (serve_keeps_well_numbered cs Hcs w) as (xs & Hxs & _ & Hnum).
  { exists []. split; [done|]. split; [constructor|]. by intros n p. }
  exists xs. split; [done|]. split; [done|]. by apply numbered_distinct.
Qed.

(** X2: the scenario of the specification: on an empty store, create A, create
    B, delete 1; a load then returns the one post B with id 2; like 2 leaves
    it with id 2 and 1 like. *)
Theorem scenario_create_delete_like w ra rb :
  persisted w (JList []) -> method ra = POST -> method rb = POST ->
  exists w3 w4,
    serve [Create ra; Create rb; Delete 1] w
    = (replicate 3 (Ok (Redirect "index")), w3) /\
    load_blog_posts w3 = (Ok (JList [created 1 rb]), w3) /\
    like 2 w3 = (Ok (Redirect "index"), w4) /\
    load_blog_posts w4 = (Ok (JList [liked (created 1 rb)]), w4) /\
    field (liked (created 1 rb)) "id" = Some (JInt 2) /\
    field (liked (created 1 rb)) "likes" = Some (JInt 1).
Proof.
  intros Hw Ha Hb.
  set (w1 := saved (JList [created 0 ra]) w).
  set (w2 := saved (JList [created 0 ra; created 1 rb]) w1).
  set (w3 := saved (JList [created 1 rb]) w2).
  assert (Hd : delete 1 w2 = (Ok (Redirect "index"), w3)).
  { unfold delete.
    rewrite (bind_Ok _ _ _ _ _ (persisted_saved _ w1 : persisted w2 _)).
    cbn [Py.iter]. rewrite (bind_lift_Ok _ _ _ _ eq_refl).
    rewrite (bind_lift_Ok _ _ _ [created 1 rb]); [done|].
    rewrite without_id_filter; [done|].
    repeat constructor; by eexists. }
  exists w3, (saved (JList [liked (created 1 rb)]) w3).
  split; [|split; [apply persisted_saved|split; [|split; [apply persisted_saved|done]]]].
  - pose proof (add_appends _ _ _ Ha Hw) as Ha1.
    pose proof (add_appends _ _ _ Hb (persisted_saved _ w : persisted w1 _)) as Ha2.
    cbn [app length] in Ha1, Ha2.
    apply (serve_cons (Create ra) _ _ _ _ _ _ Ha1),
      (serve_cons (Create rb) _ _ _ _ _ _ Ha2),
      (serve_cons (Delete 1) _ _ _ _ _ _ Hd).
    reflexivity.
  - apply (like_found w3 [created 1 rb] 2 0 (created 1 rb)).
    + apply persisted_saved.
    + by repeat constructor.
    + reflexivity.
Qed.

(** *** What a handler does to the world *)

Lemma quiet_ret {A} (a : A) : quiet (ret a).
Proof. intros w r w' [= _ <-]. done. Qed.

Lemma quiet_lift {A} (c : outcome A) : quiet (lift c).
Proof. intros w r w' [= _ <-]. done. Qed.

Lemma quiet_load : quiet load_blog_posts.
Proof.
  intros w r w'. unfold load_blog_posts.
  destruct (file w) as [text|]; [destruct (json_load text)|]; by intros [= _ <-].
Qed.

Lemma quiet_bind {A B} (c : M A) (k : A -> M B) :
  quiet c -> (forall a, quiet (k a)) -> quiet (bind c k).
Proof.
  intros Hc Hk w r w'. unfold bind.
  destruct (c w) as [[a|e] w1] eqn:E; apply Hc in E as ->.
  - apply Hk.
  - by intros [= _ <-].
Qed.

Lemma quiet_fetch post_id : quiet (fetch_post_by_id post_id).
Proof.
  apply quiet_bind; [apply quiet_load|]. intros blog_posts.
  apply quiet_bind; [apply quiet_lift|]. intros xs. apply quiet_lift.
Qed.

Lemma quiet_index : quiet index.
Proof. apply quiet_bind; [apply quiet_load|]. intros v. apply quiet_ret. Qed.










(** X4: reading never writes.  The index page, a lookup by id and the GET
    requests for the add and update forms leave the file and the output as
    they were, whatever the file holds and whatever they return. *)
Theorem reads_never_write w post_id req :
  method req = GET ->
  snd (index w) = w /\
  snd (fetch_post_by_id post_id w) = w /\
  snd (add req w) = w /\
  snd (update post_id req w) = w.
Proof.
  intros Hm. repeat split.
  - destruct (index w) as [r w'] eqn:E. by apply quiet_index in E.
  - destruct (fetch_post_by_id post_id w) as [r w'] eqn:E. by apply quiet_fetch in E.
  - unfold add. by rewrite Hm.
  - destruct (update post_id req w) as [r w'] eqn:E. revert E.
    apply (quiet_bind load_blog_posts); [apply quiet_load|]. intros blog_posts.
    apply quiet_bind; [apply quiet_fetch|]. intros [post|]; [|apply quiet_ret].
    rewrite Hm. apply quiet_ret.
Qed.

(** X5: a file that is not JSON is never overwritten.  The index page, a
    lookup by id and every request that reads the store (all but the GET of
    the add form) raise the parse error and leave the file and the output
    as they were. *)
Theorem corrupt_file_fails_every_request w text c post_id :
  file w = Some text -> json_load text = None ->
  (forall req, c = Create req -> method req = POST) ->
  index w = (Raise JSONDecodeError, w) /\
  fetch_post_by_id post_id w = (Raise JSONDecodeError, w) /\
  handle c w = (Raise JSONDecodeError, w).
Proof.
  intros Hfile Htext Hc.
  assert (Hload : load_blog_posts w = (Raise JSONDecodeError, w)).
  { unfold load_blog_posts. by rewrite Hfile, Htext. }
  assert (Hbind : forall B (k : json -> M B),
             bind load_blog_posts k w = (Raise JSONDecodeError, w)).
  { intros B k. unfold bind. by rewrite Hload. }
  split; [apply Hbind|]. split; [apply Hbind|].
  destruct c as [req|id req|id|id]; cbn [handle]; try apply Hbind.
  unfold add. rewrite (Hc req eq_refl). apply Hbind.
Qed.

(** X6: the store before its file exists.  The index page shows no posts, a
    lookup finds none, Update and Like answer not-found, and none of them
    creates the file; Delete creates the file with an empty list; a Create
    creates it with one post, numbered 1. *)
Theorem requests_without_file w post_id req :
  file w = None ->
  index w = (Ok (Render "index.html" (Some (JList []))), w) /\
  fetch_post_by_id post_id w = (Ok None, w) /\
  update post_id req w = (Ok not_found, w) /\
  like post_id w = (Ok not_found, w) /\
  delete post_id w = (Ok (Redirect "index"), saved (JList []) w) /\
  (method req = POST ->
   add req w = (Ok (Redirect "index"), saved (JList [created 0 req]) w) /\
   field (created 0 req) "id" = Some (JInt 1)).
Proof.
  intros Hfile.
  assert (Hw : persisted w (JList [])).
  { unfold persisted, load_blog_posts. by rewrite Hfile. }
  repeat split.
  - unfold index. by rewrite (bind_Ok _ _ _ _ _ Hw).
  - by rewrite (fetch_post_by_id_find _ [] post_id Hw).
  - by apply (update_no_match _ []).
  - by apply (like_no_match _ []).
  - unfold delete. by rewrite (bind_Ok _ _ _ _ _ Hw).
  - by rewrite (add_appends _ _ _ H Hw).
Qed.

(** *** Create, fetch and delete together *)

Lemma numbered_has_id xs : numbered xs -> Forall has_id xs.
Proof.
  intros Hxs. apply Forall_lookup. intros n p Hn. unfold has_id.
  by rewrite (Hxs _ _ Hn).
Qed.

Lemma filter_keeps_all {A} (P : A -> Prop) `{forall x, Decision (P x)} (l : list A) :
  Forall P l -> filter P l = l.
Proof.
  induction 1 as [|x l Hx _ IH]; [done|].
  rewrite filter_cons_True by done. by f_equal.
Qed.

Lemma delete_saves_filter w xs post_id :
  persisted w (JList xs) -> Forall has_id xs ->
  delete post_id w
  = (Ok (Redirect "index"),
     saved (JList (filter (fun p => ~ matches post_id p) xs)) w).
Proof.
  intros Hw Hxs. unfold delete.
  rewrite (bind_Ok _ _ _ _ _ Hw). cbn [Py.iter].
  rewrite (bind_lift_Ok _ _ _ xs eq_refl).
  by rewrite (bind_lift_Ok _ _ _ _ (without_id_filter _ post_id Hxs)).
Qed.

Lemma first_match_snoc_new xs post_id p :
  first_match xs post_id = None -> matches post_id p ->
  first_match (xs ++ [p]) post_id = Some (length xs, p).
Proof.
  unfold first_match. intros Hno Hp. rewrite (list_find_app_r _ _ _ Hno).
  cbn [list_find]. by rewrite decide_True.
Qed.

Lemma first_match_snoc_old xs post_id i q p :
  first_match xs post_id = Some (i, q) ->
  first_match (xs ++ [p]) post_id = Some (i, q).
Proof. apply list_find_app_l. Qed.

(** X7: when a new id repeats one.  On any persisted list, a Create appends
    one post numbered one more than the number of posts; the ids of the new
    collection are distinct exactly when the old ids were and no post had
    that number already. *)
Theorem create_keeps_ids_distinct_iff w xs req :
  persisted w (JList xs) -> method req = POST ->
  exists w',
    add req w = (Ok (Redirect "index"), w') /\
    persisted w' (JList (xs ++ [created (length xs) req])) /\
    (NoDup (post_id_of <$> xs ++ [created (length xs) req]) <->
     NoDup (post_id_of <$> xs) /\
     Forall (fun p => ~ matches (Z.of_nat (length xs) + 1) p) xs).
Proof.
  intros Hw Hm. eexists. split; [by apply add_appends|].
  split; [apply persisted_saved|].
  rewrite fmap_app, NoDup_app. cbn [fmap list_fmap]. rewrite post_id_of_created.
  split.
  - intros (Hnd & Hfresh & _). split; [done|].
    apply Forall_forall. intros p Hp Hmatch.
    apply (Hfresh (post_id_of p)); [by apply list_elem_of_fmap_2|].
    rewrite Hmatch. by left.
  - intros (Hnd & Hfresh). split; [done|]. split; [|apply NoDup_singleton].
    intros x Hx Hx'. apply list_elem_of_singleton in Hx' as ->.
    apply list_elem_of_fmap in Hx as (p & Hid & Hp).
    eapply Forall_forall in Hfresh; [|exact Hp]. by apply Hfresh.
Qed.

(** X8: a lookup after a Create.  On a list of records with ids, a lookup
    of the number a Create has just given returns the post created, with
    the fields of the form (no title or content in the form gives [None],
    no author gives ["Anonymous"]), when no post had that number; when one
    had, the lookup returns the first such post and not the new one. *)
Theorem fetch_after_create w xs req :
  persisted w (JList xs) -> Forall has_id xs -> method req = POST ->
  exists w',
    add req w = (Ok (Redirect "index"), w') /\
    (first_match xs (Z.of_nat (length xs) + 1) = None ->
     fetch_post_by_id (Z.of_nat (length xs) + 1) w'
     = (Ok (Some (created (length xs) req)), w')) /\
    (forall i q,
        first_match xs (Z.of_nat (length xs) + 1) = Some (i, q) ->
        fetch_post_by_id (Z.of_nat (length xs) + 1) w' = (Ok (Some q), w')) /\
    field (created (length xs) req) "title" = Some (form_get req "title") /\
    field (created (length xs) req) "content" = Some (form_get req "content") /\
    field (created (length xs) req) "author"
    = Some (form_get_default req "author" (JStr "Anonymous")) /\
    field (created (length xs) req) "likes" = Some (JInt 0).
Proof.
  intros Hw Hxs Hm. eexists. split; [by apply add_appends|].
  assert (Hids : Forall has_id (xs ++ [created (length xs) req])).
  { apply Forall_app. split; [done|]. repeat constructor. by eexists. }
  split; [|split; [|done]].
  - intros Hno.
    rewrite (fetch_post_by_id_find _ _ _ (persisted_saved _ w) Hids).
    by rewrite (first_match_snoc_new _ _ _ Hno (post_id_of_created _ req)).
  - intros i q Hf.
    rewrite (fetch_post_by_id_find _ _ _ (persisted_saved _ w) Hids).
    by rewrite (first_match_snoc_old _ _ _ _ _ Hf).
Qed.

Lemma filter_has_id xs post_id :
  Forall has_id xs -> Forall has_id (filter (fun p => ~ matches post_id p) xs).
Proof.
  intros Hxs. apply Forall_forall. intros p Hp.
  apply list_elem_of_filter in Hp as [_ Hp].
  by eapply Forall_forall in Hxs.
Qed.

Lemma filter_no_match xs post_id :
  Forall (fun p => ~ matches post_id p) (filter (fun p => ~ matches post_id p) xs).
Proof.
  apply Forall_forall. intros p Hp. by apply list_elem_of_filter in Hp as [? _].
Qed.

(** X9: after a Delete the id is gone.  On a list of records with ids, once
    Delete has answered, no post has the id, even if several had it: a
    lookup finds none, Like and Update answer not-found and save nothing,
    and a second Delete saves the same collection again. *)
Theorem delete_then_absent w xs post_id req :
  persisted w (JList xs) -> Forall has_id xs ->
  exists w' w'',
    delete post_id w = (Ok (Redirect "index"), w') /\
    persisted w' (JList (filter (fun p => ~ matches post_id p) xs)) /\
    Forall (fun p => ~ matches post_id p)
      (filter (fun p => ~ matches post_id p) xs) /\
    fetch_post_by_id post_id w' = (Ok None, w') /\
    like post_id w' = (Ok not_found, w') /\
    update post_id req w' = (Ok not_found, w') /\
    delete post_id w' = (Ok (Redirect "index"), w'') /\
    file w'' = file w'.
Proof.
  intros Hw Hxs.
  pose proof (filter_has_id xs post_id Hxs) as Hkept.
  pose proof (first_match_None _ _ (filter_no_match xs post_id)) as Hnone.
  pose proof (persisted_saved (JList (filter (fun p => ~ matches post_id p) xs)) w)
    as Hw'.
  eexists _, _. split; [by apply delete_saves_filter|].
  split; [done|]. split; [apply filter_no_match|].
  split; [by rewrite (fetch_post_by_id_find _ _ _ Hw' Hkept), Hnone|].
  split; [by apply (like_no_match _ _ _ Hw' Hkept)|].
  split; [by apply (update_no_match _ _ _ _ Hw' Hkept)|].
  split; [by apply delete_saves_filter|].
  cbn [saved file]. do 3 f_equal. apply filter_keeps_all, filter_no_match.
Qed.

(** *** Numbers after a delete *)

(** In a collection numbered from 1, the posts Delete keeps are all but the
    one in place [k - 1]. *)
Lemma numbered_filter xs k :
  numbered xs -> 0 < k <= length xs ->
  filter (fun p => ~ matches (Z.of_nat k) p) xs = take (k - 1) xs ++ drop k xs.
Proof.
  intros Hxs Hk.
  destruct (lookup_lt_is_Some_2 xs (k - 1)) as [p Hp]; [lia|].
  rewrite <- (take_drop_middle _ _ _ Hp) at 1.
  replace (S (k - 1)) with k by lia.
  rewrite filter_app, filter_cons_False.
  2: { intros Hno. apply Hno. unfold matches. rewrite (Hxs _ _ Hp). f_equal. lia. }
  f_equal; apply filter_keeps_all, Forall_lookup; intros i q Hq Hmatch.
  - apply lookup_take_Some in Hq as [Hq Hi].
    unfold matches in Hmatch. rewrite (Hxs _ _ Hq) in Hmatch.
    injection Hmatch as Hmatch. lia.
  - rewrite lookup_drop in Hq.
    unfold matches in Hmatch. rewrite (Hxs _ _ Hq) in Hmatch.
    injection Hmatch as Hmatch. lia.
Qed.

Lemma delete_create_numbered w xs k req :
  persisted w (JList xs) -> numbered xs -> 0 < k <= length xs ->
  method req = POST ->
  exists w',
    serve [Delete (Z.of_nat k); Create req] w
    = ([Ok (Redirect "index"); Ok (Redirect "index")], w') /\
    persisted w'
      (JList (take (k - 1) xs ++ drop k xs ++ [created (length xs - 1) req])).
Proof.
  intros Hw Hxs Hk Hm.
  pose proof (delete_saves_filter _ _ (Z.of_nat k) Hw (numbered_has_id _ Hxs)) as Hd.
  rewrite (numbered_filter _ _ Hxs Hk) in Hd.
  pose proof (add_appends _ _ _ Hm
                (persisted_saved (JList (take (k - 1) xs ++ drop k xs)) w)) as Ha.
  rewrite length_app, length_take, length_drop in Ha.
  replace (_ `min` _ + _) with (length xs - 1) in Ha by lia.
  rewrite <- app_assoc in Ha.
  eexists. split.
  - apply (serve_cons (Delete _) _ _ _ _ _ _ Hd),
      (serve_cons (Create req) _ _ _ _ _ _ Ha).
    reflexivity.
  - apply persisted_saved.
Qed.

(** X10: deleting a post that is not the last one makes the next Create
    repeat an id.  In a collection numbered 1 to n, after Delete of a k
    below n, a Create numbers its post n, the id of the last post, which is
    still there: the persisted ids are no longer distinct. *)
Theorem delete_inner_then_create_repeats_id w xs k req :
  persisted w (JList xs) -> numbered xs -> 0 < k < length xs ->
  method req = POST ->
  exists w' ys q,
    serve [Delete (Z.of_nat k); Create req] w
    = ([Ok (Redirect "index"); Ok (Redirect "index")], w') /\
    persisted w' (JList (ys ++ [created (length xs - 1) req])) /\
    ys = filter (fun p => ~ matches (Z.of_nat k) p) xs /\
    last xs = Some q /\ q ∈ ys /\
    post_id_of q = Some (Z.of_nat (length xs)) /\
    post_id_of (created (length xs - 1) req) = Some (Z.of_nat (length xs)) /\
    ~ NoDup (post_id_of <$> ys ++ [created (length xs - 1) req]).
Proof.
  intros Hw Hxs Hk Hm.
  destruct (delete_create_numbered _ _ k _ Hw Hxs ltac:(lia) Hm) as (w' & Hrun & Hw').
  destruct (lookup_lt_is_Some_2 xs (length xs - 1)) as [q Hq]; [lia|].
  assert (Hidq : post_id_of q = Some (Z.of_nat (length xs))).
  { rewrite (Hxs _ _ Hq). f_equal. lia. }
  assert (Hidc : post_id_of (created (length xs - 1) req) = Some (Z.of_nat (length xs))).
  { rewrite post_id_of_created. f_equal. lia. }
  assert (Hin : q ∈ filter (fun p => ~ matches (Z.of_nat k) p) xs).
  { apply list_elem_of_filter. split; [|by eapply list_elem_of_lookup_2].
    unfold matches. rewrite Hidq. intros [= H]. lia. }
  exists w', (filter (fun p => ~ matches (Z.of_nat k) p) xs), q.
  split; [done|]. split.
  { rewrite (numbered_filter xs k Hxs ltac:(lia)), <- app_assoc. exact Hw'. }
  split; [done|]. split.
  { rewrite last_lookup. by replace (pred (length xs)) with (length xs - 1) by lia. }
  split; [done|]. split; [done|]. split; [done|].
  rewrite fmap_app. intros Hnd. apply NoDup_app in Hnd as (_ & Hfresh & _).
  apply (Hfresh (post_id_of q)); [by apply list_elem_of_fmap_2|].
  cbn [fmap list_fmap]. rewrite Hidq, Hidc. by left.
Qed.

(** X11: deleting the last post makes the next Create take its id.  In a
    collection numbered 1 to n, after Delete of n a Create numbers its post
    n again: the collection is the first n - 1 posts and the new one, and
    it is numbered from 1. *)
Theorem delete_last_then_create_reuses_id w xs req :
  persisted w (JList xs) -> numbered xs -> 0 < length xs ->
  method req = POST ->
  exists w',
    serve [Delete (Z.of_nat (length xs)); Create req] w
    = ([Ok (Redirect "index"); Ok (Redirect "index")], w') /\
    persisted w' (JList (take (length xs - 1) xs ++ [created (length xs - 1) req])) /\
    post_id_of (created (length xs - 1) req) = Some (Z.of_nat (length xs)) /\
    numbered (take (length xs - 1) xs ++ [created (length xs - 1) req]).
Proof.
  intros Hw Hxs Hn Hm.
  destruct (delete_create_numbered _ _ (length xs) _ Hw Hxs ltac:(lia) Hm)
    as (w' & Hrun & Hw').
  rewrite drop_all in Hw'. cbn [app] in Hw'.
  exists w'. split; [done|]. split; [done|]. split.
  { rewrite post_id_of_created. f_equal. lia. }
  assert (Htake : numbered (take (length xs - 1) xs)).
  { intros i p Hp. apply lookup_take_Some in Hp as [Hp _]. by apply Hxs. }
  pose proof (numbered_created _ req Htake) as H.
  rewrite length_take in H. by replace (_ `min` _) with (length xs - 1) in H by lia.
Qed.

(** *** Update in general *)

Lemma store_same kvs k v : Py.lookup kvs k = Some v -> Py.store kvs k v = kvs.
Proof.
  induction kvs as [|[k' v'] kvs IH]; simpl; [done|].
  destruct (String.eqb k' k); [by intros [= ->]|]. intros H. by rewrite IH.
Qed.

Lemma form_get_default_twice req k d :
  form_get_default req k (form_get_default req k d) = form_get_default req k d.
Proof. unfold form_get_default. by destruct (form_lookup (form req) k). Qed.

Lemma has_id_dict p : has_id p -> exists kvs, p = JDict kvs.
Proof.
  intros [n Hn]. destruct p as [| | | | |kvs]; try discriminate. by exists kvs.
Qed.

(** X12: Update with any form, then a lookup.  On a list of records with
    ids whose first post with the id has a title and a content, a POST to
    Update saves that post with each of title, content and author replaced
    by the field of the form when the form has it and kept otherwise (an
    author that was missing becomes ["Anonymous"]), every other key as it
    was; a lookup of the id then returns the post as saved. *)
Theorem update_then_fetch w xs post_id req i p :
  persisted w (JList xs) -> Forall has_id xs ->
  first_match xs post_id = Some (i, p) ->
  is_Some (field p "title") -> is_Some (field p "content") ->
  method req = POST ->
  exists p' w',
    update post_id req w = (Ok (Redirect "index"), w') /\
    persisted w' (JList (<[i := p']> xs)) /\
    fetch_post_by_id post_id w' = (Ok (Some p'), w') /\
    field p' "title"
    = match form_lookup (form req) "title" with
      | Some s => Some (JStr s)
      | None => field p "title"
      end /\
    field p' "content"
    = match form_lookup (form req) "content" with
      | Some s => Some (JStr s)
      | None => field p "content"
      end /\
    field p' "author"
    = match form_lookup (form req) "author" with
      | Some s => Some (JStr s)
      | None => Some (author_of p)
      end /\
    (forall k, k <> "title" -> k <> "content" -> k <> "author" ->
               field p' k = field p k).
Proof.
  intros Hw Hxs Hf [t0 Ht0] [c0 Hc0] Hm.
  destruct (first_match_lookup _ _ _ _ Hf) as [Hi Hmatch].
  destruct p as [| | | | |kvs]; try discriminate. cbn [field] in Ht0, Hc0.
  pose proof (update_found _ _ _ _ _ _ t0 c0 Hw Hxs Hf Ht0 Hc0 Hm) as Hu.
  set (kvs1 :=
         Py.store
           (Py.store (Py.store kvs "title" (form_get_default req "title" t0))
              "content" (form_get_default req "content" c0))
           "author"
           (form_get_default req "author"
              (default (JStr "Anonymous") (Py.lookup kvs "author")))) in *.
  assert (Hkeep : forall k, k <> "title" -> k <> "content" -> k <> "author" ->
                       Py.lookup kvs1 k = Py.lookup kvs k).
  { intros k H1 H2 H3. unfold kvs1. by store_simpl. }
  exists (JDict kvs1), (saved (JList (<[i := JDict kvs1]> xs)) w).
  split; [exact Hu|]. split; [apply persisted_saved|]. split.
  - rewrite (fetch_post_by_id_find _ (<[i := JDict kvs1]> xs) _ (persisted_saved _ w)).
    + erewrite first_match_insert; [done|exact Hf|].
      unfold matches, post_id_of in *. cbn [field] in *. by rewrite Hkeep.
    + apply Forall_insert; [done|]. eapply Forall_lookup in Hxs; [|exact Hi].
      unfold has_id, post_id_of in *. cbn [field] in *. by rewrite Hkeep.
  - unfold kvs1, form_get_default, author_of. cbn [field]. rewrite Ht0, Hc0.
    repeat split; store_simpl.
    + by destruct (form_lookup (form req) "title").
    + by destruct (form_lookup (form req) "content").
    + by destruct (form_lookup (form req) "author").
    + intros k H1 H2 H3. by store_simpl.
Qed.

(** X13: Update is idempotent.  The same POST to Update sent twice leaves
    the collection the first one saved: the second saves the same posts and
    writes the same text. *)
Theorem update_twice w xs post_id req i p :
  persisted w (JList xs) -> Forall has_id xs ->
  first_match xs post_id = Some (i, p) ->
  is_Some (field p "title") -> is_Some (field p "content") ->
  method req = POST ->
  exists posts w1 w2,
    update post_id req w = (Ok (Redirect "index"), w1) /\
    persisted w1 posts /\
    update post_id req w1 = (Ok (Redirect "index"), w2) /\
    persisted w2 posts /\ file w2 = file w1.
Proof.
  intros Hw Hxs Hf [t0 Ht0] [c0 Hc0] Hm.
  destruct (first_match_lookup _ _ _ _ Hf) as [Hi Hmatch].
  destruct p as [| | | | |kvs]; try discriminate. cbn [field] in Ht0, Hc0.
  set (t1 := form_get_default req "title" t0).
  set (c1 := form_get_default req "content" c0).
  set (a1 := form_get_default req "author"
               (default (JStr "Anonymous") (Py.lookup kvs "author"))).
  set (kvs1 := Py.store (Py.store (Py.store kvs "title" t1) "content" c1) "author" a1).
  assert (Hid : Py.lookup kvs1 "id" = Py.lookup kvs "id").
  { unfold kvs1. by store_simpl. }
  assert (Ht1 : Py.lookup kvs1 "title" = Some t1) by (unfold kvs1; by store_simpl).
  assert (Hc1 : Py.lookup kvs1 "content" = Some c1) by (unfold kvs1; by store_simpl).
  assert (Ha1 : Py.lookup kvs1 "author" = Some a1) by (unfold kvs1; by store_simpl).
  pose proof (update_found _ _ _ _ _ _ t0 c0 Hw Hxs Hf Ht0 Hc0 Hm) as Hu1.
  fold t1 c1 a1 kvs1 in Hu1.
  assert (Hxs1 : Forall has_id (<[i := JDict kvs1]> xs)).
  { apply Forall_insert; [done|]. eapply Forall_lookup in Hxs; [|exact Hi].
    unfold has_id, post_id_of in *. cbn [field] in *. by rewrite Hid. }
  assert (Hf1 : first_match (<[i := JDict kvs1]> xs) post_id = Some (i, JDict kvs1)).
  { eapply first_match_insert; [exact Hf|].
    unfold matches, post_id_of in *. cbn [field] in *. by rewrite Hid. }
  pose proof (update_found _ _ _ _ _ _ t1 c1 (persisted_saved _ w) Hxs1 Hf1 Ht1 Hc1 Hm)
    as Hu2.
  rewrite Ha1 in Hu2. change (default (JStr "Anonymous") (Some a1)) with a1 in Hu2.
  assert (Hsame :
            Py.store
              (Py.store (Py.store kvs1 "title" (form_get_default req "title" t1))
                 "content" (form_get_default req "content" c1))
              "author" (form_get_default req "author" a1)
            = kvs1).
  { replace (form_get_default req "title" t1) with t1
      by (symmetry; apply form_get_default_twice).
    replace (form_get_default req "content" c1) with c1
      by (symmetry; apply form_get_default_twice).
    replace (form_get_default req "author" a1) with a1
      by (symmetry; apply form_get_default_twice).
    by rewrite (store_same _ _ _ Ht1), (store_same _ _ _ Hc1),
      (store_same _ _ _ Ha1). }
  rewrite Hsame, list_insert_insert_eq in Hu2.
  eexists _, _, _. split; [exact Hu1|]. split; [apply persisted_saved|].
  split; [exact Hu2|]. split; [apply persisted_saved|done].
Qed.

(** X14: a record without title or content cannot be updated.  When the
    first post with the id lacks the ["title"] or the ["content"] key, a
    POST to Update raises the key error and saves nothing, even if the form
    supplies the field, because the old value is read before the form is
    asked; the GET of the same post still shows its page. *)
Theorem update_missing_key_raises w xs post_id req req' i p :
  persisted w (JList xs) -> Forall has_id xs ->
  first_match xs post_id = Some (i, p) ->
  field p "title" = None \/ field p "content" = None ->
  method req = POST -> method req' = GET ->
  update post_id req w = (Raise KeyError, w) /\
  update post_id req' w = (Ok (Render "update.html" (Some p)), w).
Proof.
  intros Hw Hxs Hf Hmiss Hm Hm'. split; [|by apply (update_found_get _ xs _ _ i)].
  destruct (first_match_lookup _ _ _ _ Hf) as [Hi Hmatch].
  destruct (has_id_dict p) as [kvs ->].
  { by eapply Forall_lookup in Hxs. }
  cbn [field] in Hmiss. unfold update.
  rewrite (bind_Ok _ _ _ _ _ Hw).
  rewrite (bind_Ok _ _ _ _ _ (fetch_post_by_id_find _ _ post_id Hw Hxs)).
  rewrite Hf. cbn [fmap option_fmap option_map snd]. rewrite Hm. cbn [Py.iter].
  rewrite (bind_lift_Ok _ _ _ xs eq_refl).
  rewrite (bind_lift_Ok _ _ _ _ (index_with_id_find _ post_id 0 Hxs)).
  rewrite Hf. cbn [fmap option_fmap option_map fst Nat.add Py.getitem].
  destruct (Py.lookup kvs "title") as [t0|] eqn:Ht0; [|done].
  destruct Hmiss as [[=]|Hc0].
  rewrite (bind_lift_Ok _ _ _ t0 eq_refl).
  rewrite (bind_lift_Ok _ _ _ _ (set_field_dict _ _ _ "title" _ Hi)).
  by rewrite Hc0.
Qed.

(** *** Likes in general *)

Lemma is_post_liked_n n p : is_post p -> is_post (Nat.iter n liked p).
Proof. intros Hp. induction n as [|n IH]; [done|]. by apply is_post_liked. Qed.

Lemma field_liked_n_ne n p k :
  k <> "likes" -> field (Nat.iter n liked p) k = field p k.
Proof.
  intros Hk. induction n as [|n IH]; [done|].
  cbn [Nat.iter nat_rect]. by rewrite field_liked_ne.
Qed.

Lemma likes_of_liked p : is_post p -> likes_of (liked p) = (likes_of p + 1)%Z.
Proof.
  unfold is_post, likes_of. destruct p as [| | | | |kvs]; try done.
  destruct (post_id_of (JDict kvs)), (field (JDict kvs) "title"),
    (field (JDict kvs) "content"); try done.
  cbn [liked field]. store_simpl.
  destruct (Py.lookup kvs "likes") as [[]|]; try done.
Qed.

Lemma field_likes_liked p :
  is_post p -> field (liked p) "likes" = Some (JInt (likes_of p + 1)).
Proof.
  unfold is_post, likes_of. destruct p as [| | | | |kvs]; try done.
  destruct (post_id_of (JDict kvs)), (field (JDict kvs) "title"),
    (field (JDict kvs) "content"); try done.
  cbn [liked field]. store_simpl.
  destruct (Py.lookup kvs "likes") as [[]|]; try done.
Qed.

Lemma serve_likes n :
  forall w xs post_id i p,
    persisted w (JList xs) -> Forall is_post xs ->
    first_match xs post_id = Some (i, p) ->
    exists w',
      serve (replicate n (Like post_id)) w
      = (replicate n (Ok (Redirect "index")), w') /\
      persisted w' (JList (<[i := Nat.iter n liked p]> xs)).
Proof.
  induction n as [|n IH]; intros w xs post_id i p Hw Hxs Hf;
    destruct (first_match_lookup _ _ _ _ Hf) as [Hi Hmatch].
  - exists w. split; [done|]. cbn [Nat.iter nat_rect]. by rewrite list_insert_id.
  - assert (Hp : is_post p).
    { eapply Forall_lookup in Hxs; [exact Hxs|exact Hi]. }
    destruct (IH (saved (JList (<[i := liked p]> xs)) w) (<[i := liked p]> xs)
                post_id i (liked p)) as (w' & Hrun & Hw').
    + apply persisted_saved.
    + apply Forall_insert; [done|]. by apply is_post_liked.
    + eapply first_match_insert; [exact Hf|]. by apply matches_liked.
    + exists w'. split.
      * cbn [replicate]. eapply (serve_cons (Like post_id)); [|exact Hrun].
        by apply like_found.
      * rewrite list_insert_insert_eq in Hw'. by rewrite Nat.iter_succ_r.
Qed.

(** X15: Like counts every call.  On a collection of posts, n Likes in a
    row of the same id all succeed and leave the first post with the id
    with n more likes than it had (counting a post without the key as 0),
    and nothing else changed. *)
Theorem likes_add_up w xs post_id i p n :
  persisted w (JList xs) -> Forall is_post xs ->
  first_match xs post_id = Some (i, p) ->
  exists p' w',
    serve (replicate n (Like post_id)) w
    = (replicate n (Ok (Redirect "index")), w') /\
    persisted w' (JList (<[i := p']> xs)) /\
    likes_of p' = (likes_of p + Z.of_nat n)%Z /\
    (0 < n -> field p' "likes" = Some (JInt (likes_of p + Z.of_nat n))) /\
    (forall k, k <> "likes" -> field p' k = field p k).
Proof.
  intros Hw Hxs Hf.
  destruct (first_match_lookup _ _ _ _ Hf) as [Hi _].
  assert (Hp : is_post p).
  { eapply Forall_lookup in Hxs; [exact Hxs|exact Hi]. }
  destruct (serve_likes n _ _ _ _ _ Hw Hxs Hf) as (w' & Hrun & Hw').
  exists (Nat.iter n liked p), w'. split; [done|]. split; [done|].
  assert (Hlikes : forall m, likes_of (Nat.iter m liked p) = (likes_of p + Z.of_nat m)%Z).
  { induction m as [|m IH]; [cbn; lia|].
    cbn [Nat.iter nat_rect]. rewrite likes_of_liked by by apply is_post_liked_n.
    fold (Nat.iter m liked p). rewrite IH. lia. }
  split; [apply Hlikes|]. split; [|intros k Hk; by apply field_liked_n_ne].
  intros Hn. destruct n as [|n]; [lia|].
  cbn [Nat.iter nat_rect]. rewrite field_likes_liked by by apply is_post_liked_n.
  fold (Nat.iter n liked p). rewrite Hlikes. do 2 f_equal. lia.
Qed.


(** *** How far a scan goes *)

Lemma first_with_id_prefix l1 p rest post_id :
  Forall has_id l1 -> Forall (fun q => ~ matches post_id q) l1 ->
  has_id p -> matches post_id p ->
  first_with_id (l1 ++ p :: rest) post_id = Ok (Some p).
Proof.
  intros Hids Hno [n Hn] Hp. induction Hids as [|q l1 [m Hq] _ IH]; cbn [app first_with_id].
  - rewrite (getitem_id _ _ Hn). cbn [obind].
    by rewrite (eq_int_matches _ _ post_id Hn), bool_decide_eq_true_2.
  - apply Forall_cons in Hno as [Hq' Hno]. rewrite (getitem_id _ _ Hq). cbn [obind].
    rewrite (eq_int_matches _ _ post_id Hq), bool_decide_eq_false_2 by done.
    by apply IH.
Qed.

Lemma index_with_id_prefix l1 p rest post_id from :
  Forall has_id l1 -> Forall (fun q => ~ matches post_id q) l1 ->
  has_id p -> matches post_id p ->
  index_with_id (l1 ++ p :: rest) post_id from = Ok (Some (from + length l1)).
Proof.
  intros Hids Hno [n Hn] Hp. revert from.
  induction Hids as [|q l1 [m Hq] _ IH]; intros from; cbn [app index_with_id].
  - rewrite (getitem_id _ _ Hn). cbn [obind].
    rewrite (eq_int_matches _ _ post_id Hn), bool_decide_eq_true_2 by done.
    cbn [length]. do 2 f_equal. lia.
  - apply Forall_cons in Hno as [Hq' Hno]. rewrite (getitem_id _ _ Hq). cbn [obind].
    rewrite (eq_int_matches _ _ post_id Hq), bool_decide_eq_false_2 by done.
    rewrite (IH Hno). cbn [length]. do 2 f_equal. lia.
Qed.

Lemma without_id_raises l q rest post_id e :
  Forall has_id l -> Py.getitem q "id" = Raise e ->
  without_id (l ++ q :: rest) post_id = Raise e.
Proof.
  intros Hl Hq. induction Hl as [|p l [n Hp] _ IH]; cbn [app without_id].
  - by rewrite Hq.
  - rewrite (getitem_id _ _ Hp). cbn [obind]. by rewrite IH.
Qed.

(** X17: the scans for one post stop at it, Delete goes through all.  With
    a record without an ["id"] key somewhere after the first post with the
    id, a lookup still returns that post and Like still counts and saves,
    but Delete, of any id, raises the key error and saves nothing. *)
Theorem record_without_id_after_match w l1 p l2 kvs l3 post_id other :
  persisted w (JList (l1 ++ p :: l2 ++ JDict kvs :: l3)) ->
  Forall has_id l1 -> Forall (fun q => ~ matches post_id q) l1 ->
  is_post p -> matches post_id p ->
  Forall has_id l2 -> field (JDict kvs) "id" = None ->
  fetch_post_by_id post_id w = (Ok (Some p), w) /\
  like post_id w
  = (Ok (Redirect "index"),
     saved (JList (l1 ++ liked p :: l2 ++ JDict kvs :: l3)) w) /\
  delete other w = (Raise KeyError, w).
Proof.
  intros Hw H1 Hno Hp Hmatch H2 Hkvs.
  pose proof (is_post_has_id _ Hp) as Hidp.
  split; [|split].
  - unfold fetch_post_by_id. rewrite (bind_Ok _ _ _ _ _ Hw). cbn [Py.iter].
    rewrite (bind_lift_Ok _ _ _ _ eq_refl).
    by rewrite first_with_id_prefix.
  - unfold like. rewrite (bind_Ok _ _ _ _ _ Hw). cbn [Py.iter].
    rewrite (bind_lift_Ok _ _ _ _ eq_refl).
    rewrite (bind_lift_Ok _ _ _ _
               (index_with_id_prefix _ _ _ post_id 0 H1 Hno Hidp Hmatch)).
    cbn [Nat.add Py.getindex]. rewrite list_lookup_middle by done.
    rewrite (bind_lift_Ok _ _ _ p eq_refl).
    rewrite (bind_lift_Ok _ _ _ _ (bump_likes_liked _ Hp)).
    cbn [Py.aliased]. rewrite insert_app_r_alt by done.
    by rewrite Nat.sub_diag.
  - unfold delete. rewrite (bind_Ok _ _ _ _ _ Hw). cbn [Py.iter].
    rewrite (bind_lift_Ok _ _ _ _ eq_refl).
    replace (l1 ++ p :: l2 ++ JDict kvs :: l3)
      with ((l1 ++ p :: l2) ++ JDict kvs :: l3) by by rewrite <- app_assoc.
    rewrite (without_id_raises _ _ _ _ KeyError); [done| |].
    + apply Forall_app. split; [done|]. by constructor.
    + cbn [field] in Hkvs. cbn [Py.getitem]. by rewrite Hkvs.
Qed.

(** *** The saves of a run *)



(** *** A file that holds something else *)

(** X19: a file that holds a number, a boolean or [null].  The index page
    shows the value; a lookup and every request that reads the store (all
    but the GET of the add form) raise the type error, and nothing is
    saved. *)
Theorem scalar_file_fails_every_request w v c post_id :
  persisted w v ->
  v = JNull \/ (exists b, v = JBool b) \/ (exists n, v = JInt n) ->
  (forall req, c = Create req -> method req = POST) ->
  index w = (Ok (Render "index.html" (Some v)), w) /\
  fetch_post_by_id post_id w = (Raise TypeError, w) /\
  handle c w = (Raise TypeError, w).
Proof.
  intros Hw Hv Hc.
  assert (Hiter : Py.iter v = Raise TypeError /\ Py.len v = Raise TypeError).
  { by destruct Hv as [->|[[b ->]|[n ->]]]. }
  destruct Hiter as [Hiter Hlen].
  assert (Hfetch : fetch_post_by_id post_id w = (Raise TypeError, w)).
  { unfold fetch_post_by_id. rewrite (bind_Ok _ _ _ _ _ Hw).
    unfold bind, lift. by rewrite Hiter. }
  split; [|split; [exact Hfetch|]].
  - unfold index. by rewrite (bind_Ok _ _ _ _ _ Hw).
  - destruct c as [req|id req|id|id]; cbn [handle].
    + unfold add. rewrite (Hc req eq_refl), (bind_Ok _ _ _ _ _ Hw).
      unfold bind, lift. by rewrite Hlen.
    + unfold update. rewrite (bind_Ok _ _ _ _ _ Hw).
      unfold fetch_post_by_id. unfold bind at 1. rewrite (bind_Ok _ _ _ _ _ Hw).
      unfold bind, lift. by rewrite Hiter.
    + unfold delete. rewrite (bind_Ok _ _ _ _ _ Hw).
      unfold bind, lift. by rewrite Hiter.
    + unfold like. rewrite (bind_Ok _ _ _ _ _ Hw).
      unfold bind, lift. by rewrite Hiter.
Qed.

(** *** What every request keeps *)

Lemma ids_insert (xs : list json) (i : nat) p p' :
  xs !! i = Some p -> post_id_of p' = post_id_of p ->
  post_id_of <$> <[i := p']> xs = post_id_of <$> xs.
Proof.
  intros Hi Hid. rewrite list_fmap_insert, Hid.
  apply list_insert_id. by rewrite list_lookup_fmap, Hi.
Qed.

Lemma filter_is_post xs post_id :
  Forall is_post xs -> Forall is_post (filter (fun p => ~ matches post_id p) xs).
Proof.
  intros Hxs. apply Forall_forall. intros p Hp.
  apply list_elem_of_filter in Hp as [_ Hp].
  by eapply Forall_forall in Hxs.
Qed.

(** X20: a collection of posts stays one.  Whatever a request answers on a
    persisted list of posts, the store persists a list of posts after it:
    after a Create the same list or the list with one post more at its
    end, after a Delete the posts with another id in their order, after an
    Update or a Like as many posts with the same ids in the same order. *)
Theorem requests_keep_posts c w xs r w' :
  persisted w (JList xs) -> Forall is_post xs -> handle c w = (r, w') ->
  exists ys,
    persisted w' (JList ys) /\ Forall is_post ys /\
    match c with
    | Create req => ys = xs \/ ys = xs ++ [created (length xs) req]
    | Delete post_id => ys = filter (fun p => ~ matches post_id p) xs
    | Update _ _ | Like _ =>
        length ys = length xs /\ post_id_of <$> ys = post_id_of <$> xs
    end.
Proof.
  intros Hw Hxs Hrun.
  pose proof (posts_have_ids _ Hxs) as Hids.
  destruct c as [req|post_id req|post_id|post_id]; cbn [handle] in Hrun.
  - destruct (method req) eqn:Hm.
    + unfold add in Hrun. rewrite Hm in Hrun. injection Hrun as _ <-.
      exists xs. by auto.
    + rewrite (add_appends _ _ _ Hm Hw) in Hrun. injection Hrun as _ <-.
      eexists. split; [apply persisted_saved|]. split; [|by right].
      apply Forall_app. split; [done|]. by repeat constructor.
  - destruct (first_match xs post_id) as [[i p]|] eqn:Hf.
    + destruct (first_match_lookup _ _ _ _ Hf) as [Hi _].
      destruct (method req) eqn:Hm.
      { rewrite (update_found_get _ _ _ _ _ _ Hw Hids Hf Hm) in Hrun.
        injection Hrun as _ <-. exists xs. by auto. }
      assert (Hp : is_post p).
      { eapply Forall_lookup in Hxs; [exact Hxs|exact Hi]. }
      pose proof Hp as Hp'. unfold is_post, post_id_of in Hp'.
      destruct p as [| | | | |kvs]; try done. cbn [field] in Hp'.
      destruct (Py.lookup kvs "id") as [[| |n| | |]|] eqn:Hid; try done.
      destruct (Py.lookup kvs "title") as [t0|] eqn:Ht0; [|done].
      destruct (Py.lookup kvs "content") as [c0|] eqn:Hc0; [|done].
      rewrite (update_found _ _ _ _ _ _ _ _ Hw Hids Hf Ht0 Hc0 Hm) in Hrun.
      injection Hrun as _ <-. eexists. split; [apply persisted_saved|]. split.
      * apply Forall_insert; [done|].
        unfold is_post, post_id_of. cbn [field]. store_simpl. rewrite Hid.
        by store_simpl.
      * split; [apply length_insert|]. eapply ids_insert; [done|].
        unfold post_id_of. cbn [field]. by store_simpl.
    + rewrite (update_no_match _ _ _ req Hw Hids Hf) in Hrun.
      injection Hrun as _ <-. exists xs. by auto.
  - rewrite (delete_saves_filter _ _ post_id Hw Hids) in Hrun.
    injection Hrun as _ <-. eexists. split; [apply persisted_saved|].
    split; [by apply filter_is_post|done].
  - destruct (first_match xs post_id) as [[i p]|] eqn:Hf.
    + destruct (first_match_lookup _ _ _ _ Hf) as [Hi _].
      assert (Hp : is_post p).
      { eapply Forall_lookup in Hxs; [exact Hxs|exact Hi]. }
      rewrite (like_found _ _ _ _ _ Hw Hxs Hf) in Hrun. injection Hrun as _ <-.
      eexists. split; [apply persisted_saved|]. split.
      * apply Forall_insert; [done|]. by apply is_post_liked.
      * split; [apply length_insert|]. eapply ids_insert; [done|].
        unfold post_id_of. by rewrite field_liked_ne.
    + rewrite (like_no_match _ _ _ Hw Hids Hf) in Hrun.
      injection Hrun as _ <-. exists xs. by auto.
Qed.

End Store.

(** ** The text format reads back what it writes *)

Module JsonTextFacts.
Import JsonText.
Local Arguments String.append !_ _ / : simpl nomatch.

Lemma sapp_assoc (a b c : string) : (a +:+ b) +:+ c = a +:+ (b +:+ c).
Proof. induction a as [|x a IH]; simpl; [done|]. by rewrite IH. Qed.

Lemma sapp_nil_r (a : string) : a +:+ EmptyString = a.
Proof. induction a as [|x a IH]; simpl; [done|]. by rewrite IH. Qed.

Lemma slength_app (a b : string) :
  String.length (a +:+ b) = String.length a + String.length b.
Proof. induction a as [|x a IH]; simpl; [done|]. by rewrite IH. Qed.

Lemma unquote_escape s rest :
  unquote (escape s +:+ String dquote rest) = Some (s, rest).
Proof.
  induction s as [|c s IH]; [done|]. cbn [escape].
  destruct (Ascii.eqb c dquote) eqn:Eq; [|destruct (Ascii.eqb c backslash) eqn:Eb];
    cbn [orb String.append unquote].
  - change (Ascii.eqb backslash dquote) with false.
    change (Ascii.eqb backslash backslash) with true. cbn iota. by rewrite IH.
  - change (Ascii.eqb backslash dquote) with false.
    change (Ascii.eqb backslash backslash) with true. cbn iota. by rewrite IH.
  - by rewrite Eq, Eb, IH.
Qed.

Lemma parse_key_quote k rest :
  parse_key (quote k +:+ String ":" rest) = Some (k, rest).
Proof.
  unfold quote, parse_key. cbn [String.append]. rewrite sapp_assoc.
  cbn [String.append]. change (Ascii.eqb dquote dquote) with true. cbn iota.
  rewrite unquote_escape. by change (Ascii.eqb ":" ":") with true.
Qed.

(** *** Integers *)

Lemma all_num_uint d : all_num (NilEmpty.string_of_uint d) = true.
Proof. induction d; simpl; try done. Qed.

Lemma all_num_dump_int n : all_num (dump_int n) = true.
Proof.
  unfold dump_int.
  assert (H : forall d, all_num (NilZero.string_of_uint d) = true).
  { intros d. destruct d; try done; apply (all_num_uint (_ d)). }
  destruct (Z.to_int n) as [d|d]; simpl; [apply H|].
  change (is_num_char "-") with true. apply H.
Qed.

Lemma dump_int_head n :
  exists c r, dump_int n = String c r /\ is_num_char c = true.
Proof.
  pose proof (all_num_dump_int n) as H.
  destruct (dump_int n) as [|c r] eqn:E.
  - exfalso. unfold dump_int in E.
    destruct (Z.to_int n) as [d|d]; [|done]. by destruct d.
  - exists c, r. split; [done|]. simpl in H. by apply andb_true_iff in H as [? _].
Qed.

Lemma span_num_app a rest :
  all_num a = true -> tail_ok rest -> span_num (a +:+ rest) = (a, rest).
Proof.
  intros Ha Hrest. induction a as [|c a IH]; simpl.
  - destruct rest as [|c r]; simpl in *; [done|]. by rewrite Hrest.
  - simpl in Ha. apply andb_true_iff in Ha as [Hc Ha].
    by rewrite Hc, (IH Ha).
Qed.

Lemma parse_int_dump n rest :
  tail_ok rest -> parse_int (dump_int n +:+ rest) = Some (n, rest).
Proof.
  intros Hrest. unfold parse_int.
  rewrite (span_num_app _ _ (all_num_dump_int n) Hrest).
  unfold dump_int. rewrite NilZero.isi.
  - by rewrite DecimalZ.of_to.
  - destruct n as [|p|p]; try done. simpl. intros [= H].
    by apply DecimalPos.Unsigned.to_uint_nonnil in H.
  - destruct n as [|p|p]; try done. simpl. intros [= H].
    by apply DecimalPos.Unsigned.to_uint_nonnil in H.
Qed.

(** *** Values *)

Lemma json_nested_ind (P : json -> Prop) :
  P JNull -> (forall b, P (JBool b)) -> (forall n, P (JInt n)) ->
  (forall s, P (JStr s)) ->
  (forall xs, Forall P xs -> P (JList xs)) ->
  (forall kvs, Forall (fun kv => P (snd kv)) kvs -> P (JDict kvs)) ->
  forall v, P v.
Proof.
  intros HN HB HI HS HL HD. fix IH 1. intros [|b|n|s|xs|kvs].
  - exact HN.
  - apply HB.
  - apply HI.
  - apply HS.
  - apply HL. induction xs as [|x xs IHxs]; constructor; [apply IH|exact IHxs].
  - apply HD. induction kvs as [|[k v] kvs IHkvs]; constructor;
      [apply IH|exact IHkvs].
Qed.

(** The parser, one equation per kind of first character. *)

Lemma parse_num fuel c r :
  is_num_char c = true ->
  parse (S fuel) (String c r)
  = match parse_int (String c r) with
    | Some (n, after) => Some (JInt n, after)
    | None => None
    end.
Proof. intros H. cbn [parse]. by rewrite H. Qed.

Lemma parse_str fuel r :
  parse (S fuel) (String dquote r)
  = match unquote r with
    | Some (t, after) => Some (JStr t, after)
    | None => None
    end.
Proof. reflexivity. Qed.

Lemma parse_list fuel r :
  parse (S fuel) (String "[" r)
  = match strip_prefix "]" r with
    | Some after => Some (JList [], after)
    | None =>
        match parse fuel r with
        | Some (x, after) =>
            match parse_items fuel after with
            | Some (xs, after') => Some (JList (x :: xs), after')
            | None => None
            end
        | None => None
        end
    end.
Proof. reflexivity. Qed.

Lemma parse_dict fuel r :
  parse (S fuel) (String "{" r)
  = match strip_prefix "}" r with
    | Some after => Some (JDict [], after)
    | None =>
        match parse_key r with
        | Some (k, after) =>
            match parse fuel after with
            | Some (v, after') =>
                match parse_members fuel after' with
                | Some (kvs, after'') => Some (JDict ((k, v) :: kvs), after'')
                | None => None
                end
            | None => None
            end
        | None => None
        end
    end.
Proof. reflexivity. Qed.

Lemma parse_items_close fuel r : parse_items (S fuel) (String "]" r) = Some ([], r).
Proof. reflexivity. Qed.

Lemma parse_items_comma fuel r :
  parse_items (S fuel) (String "," r)
  = match parse fuel r with
    | Some (x, after) =>
        match parse_items fuel after with
        | Some (xs, after') => Some (x :: xs, after')
        | None => None
        end
    | None => None
    end.
Proof. reflexivity. Qed.

Lemma parse_members_close fuel r :
  parse_members (S fuel) (String "}" r) = Some ([], r).
Proof. reflexivity. Qed.

Lemma parse_members_comma fuel r :
  parse_members (S fuel) (String "," r)
  = match parse_key r with
    | Some (k, after) =>
        match parse fuel after with
        | Some (v, after') =>
            match parse_members fuel after' with
            | Some (kvs, after'') => Some ((k, v) :: kvs, after'')
            | None => None
            end
        | None => None
        end
    | None => None
    end.
Proof. reflexivity. Qed.

(** No value starts with a closing bracket. *)
Lemma strip_close_dump v rest : strip_prefix "]" (dump v +:+ rest) = None.
Proof.
  destruct v as [|[]|n|s|[|x xs]|[|[k v] kvs]]; try reflexivity.
  destruct (dump_int_head n) as (c & r & E & Hc). cbn [dump]. rewrite E.
  cbn [String.append strip_prefix].
  destruct (Ascii.eqb_spec "]" c) as [<-|]; [done|done].
Qed.

Lemma tail_ok_items f xs rest : tail_ok (dump_items f xs +:+ rest).
Proof. by destruct xs. Qed.

Lemma tail_ok_members f kvs rest : tail_ok (dump_members f kvs +:+ rest).
Proof. by destruct kvs as [|[]]. Qed.

Lemma parse_items_dump xs :
  Forall parses xs ->
  forall fuel rest,
    String.length (dump_items dump xs) < fuel ->
    parse_items fuel (dump_items dump xs +:+ rest) = Some (xs, rest).
Proof.
  induction 1 as [|x xs Hx _ IH]; intros fuel rest Hfuel;
    (destruct fuel as [|fuel]; [lia|]); cbn [dump_items String.append].
  - apply parse_items_close.
  - cbn [dump_items String.length] in Hfuel. rewrite slength_app in Hfuel.
    rewrite parse_items_comma, sapp_assoc.
    rewrite Hx; [|lia|apply tail_ok_items]. rewrite IH; [done|lia].
Qed.

Lemma parse_members_dump kvs :
  Forall (fun kv => parses (snd kv)) kvs ->
  forall fuel rest,
    String.length (dump_members dump kvs) < fuel ->
    parse_members fuel (dump_members dump kvs +:+ rest) = Some (kvs, rest).
Proof.
  induction 1 as [|[k v] kvs Hv _ IH]; intros fuel rest Hfuel;
    (destruct fuel as [|fuel]; [lia|]); cbn [dump_members String.append].
  - apply parse_members_close.
  - cbn [dump_members String.length] in Hfuel.
    rewrite !slength_app in Hfuel. cbn [String.length] in Hfuel.
    rewrite slength_app in Hfuel.
    rewrite parse_members_comma, sapp_assoc. cbn [String.append].
    rewrite parse_key_quote, sapp_assoc. cbn [snd] in Hv.
    rewrite Hv; [|lia|apply tail_ok_members]. rewrite IH; [done|lia].
Qed.

Lemma parse_dump v : parses v.
Proof.
  induction v as [|b|n|s|xs IH|kvs IH] using json_nested_ind;
    intros fuel rest Hfuel Hrest; (destruct fuel as [|fuel]; [lia|]).
  - reflexivity.
  - by destruct b.
  - destruct (dump_int_head n) as (c & r & E & Hc). cbn [dump]. rewrite E.
    cbn [String.append]. rewrite (parse_num _ _ _ Hc).
    change (String c (r +:+ rest)) with (String c r +:+ rest).
    by rewrite <- E, parse_int_dump.
  - cbn [dump]. unfold quote. cbn [String.append].
    rewrite parse_str, sapp_assoc. cbn [String.append].
    by rewrite unquote_escape.
  - destruct IH as [|x xs Hx Hxs]; [reflexivity|].
    cbn [dump String.length] in Hfuel. rewrite slength_app in Hfuel.
    cbn [dump String.append]. rewrite parse_list, sapp_assoc, strip_close_dump.
    rewrite Hx; [|lia|apply tail_ok_items].
    rewrite (parse_items_dump _ Hxs); [done|lia].
  - destruct IH as [|[k v] kvs Hv Hkvs]; [reflexivity|].
    cbn [dump String.length] in Hfuel.
    rewrite !slength_app in Hfuel. cbn [String.length] in Hfuel.
    rewrite slength_app in Hfuel.
    cbn [dump String.append]. rewrite parse_dict, sapp_assoc.
    cbn [String.append]. rewrite parse_key_quote, sapp_assoc.
    assert (Hk : strip_prefix "}" (quote k +:+ String ":" (dump v +:+ dump_members dump kvs +:+ rest)) = None) by reflexivity.
    rewrite Hk. cbn [snd] in Hv.
    rewrite Hv; [|lia|apply tail_ok_members].
    rewrite (parse_members_dump _ Hkvs); [done|lia].
Qed.

(** What [dump] writes, [load] reads back. *)
Lemma load_dump v : load (dump v) = Some v.
Proof.
  unfold load. rewrite <- (sapp_nil_r (dump v)) at 2.
  by rewrite parse_dump; [|lia|].
Qed.

End JsonTextFacts.

(** ** The theorems on the example data

    Each claim's theorem at the text format above and one concrete store. *)

Section Witnesses.

Import Example.

Local Abbreviation dump := JsonText.dump.
Local Abbreviation load := JsonText.load.
Local Abbreviation law := JsonTextFacts.load_dump.

Lemma stored_persisted : persisted load stored (JList posts).
Proof. vm_compute. reflexivity. Defined.

Lemma empty_persisted : persisted load empty (JList []).
Proof. reflexivity. Defined.

Lemma posts_are_posts : Forall is_post posts.
Proof. repeat (constructor; [exact I|]). constructor. Defined.

Lemma posts_have_id : Forall has_id posts.
Proof. repeat (constructor; [by eexists|]). constructor. Defined.

Lemma no_post_7 : Forall (fun p => ~ matches 7 p) posts.
Proof. repeat (constructor; [by intros [=]|]). constructor. Defined.

Lemma forms_post : Forall (fun req => method req = POST) [form_a; form_b; form_c].
Proof. repeat (constructor; [reflexivity|]). constructor. Defined.

Lemma load_blog_posts_missing_or_malformed_witness :
  load_blog_posts load empty = (Ok (JList []), empty) /\
  load_blog_posts load broken = (Raise JSONDecodeError, broken).
Proof.
  split.
  - apply (load_blog_posts_missing_or_malformed load empty). reflexivity.
  - apply (proj2 (load_blog_posts_missing_or_malformed load broken) "not json").
    + reflexivity.
    + vm_compute. reflexivity.
Defined.

Lemma fetch_post_by_id_first_witness :
  persisted load stored (JList posts) /\ Forall has_id posts /\
  fetch_post_by_id load 2 stored = (Ok (Some post2), stored) /\
  fetch_post_by_id load 7 stored = (Ok None, stored).
Proof.
  split; [exact stored_persisted|]. split; [exact posts_have_id|]. split.
  - destruct (fetch_post_by_id_first load stored posts 2
                stored_persisted posts_have_id) as (r & Hrun & Hsome & _).
    rewrite Hrun. do 2 f_equal. apply Hsome. exists 1.
    split; [reflexivity|]. split; [reflexivity|].
    intros [|j] q Hq Hj; [|lia]. injection Hq as <-. by intros [=].
  - destruct (fetch_post_by_id_first load stored posts 7
                stored_persisted posts_have_id) as (r & Hrun & _ & Hnone).
    rewrite Hrun. do 2 f_equal. apply Hnone. exact no_post_7.
Defined.

Lemma update_absent_not_found_witness :
  persisted load stored (JList posts) /\ Forall has_id posts /\
  Forall (fun p => ~ matches 7 p) posts /\
  update dump load 7 title_only stored = (Ok not_found, stored).
Proof.
  split; [exact stored_persisted|]. split; [exact posts_have_id|].
  split; [exact no_post_7|].
  exact (update_absent_not_found dump load stored posts 7 title_only
           stored_persisted posts_have_id no_post_7).
Defined.

Lemma like_absent_not_found_witness :
  persisted load stored (JList posts) /\ Forall has_id posts /\
  Forall (fun p => ~ matches 7 p) posts /\
  like dump load 7 stored = (Ok not_found, stored).
Proof.
  split; [exact stored_persisted|]. split; [exact posts_have_id|].
  split; [exact no_post_7|].
  exact (like_absent_not_found dump load stored posts 7
           stored_persisted posts_have_id no_post_7).
Defined.

Lemma delete_removes_and_saves_witness :
  persisted load stored (JList posts) /\ Forall has_id posts /\
  (exists w',
      delete dump load 1 stored = (Ok (Redirect "index"), w') /\
      file w' = Some (dump (JList [post2])) /\
      stdout w' = [JList [post2]]) /\
  (exists w',
      delete dump load 7 stored = (Ok (Redirect "index"), w') /\
      file w' = Some (dump (JList posts)) /\
      stdout w' = [JList posts]).
Proof.
  split; [exact stored_persisted|]. split; [exact posts_have_id|]. split.
  - destruct (delete_removes_and_saves dump load law stored posts 1
                stored_persisted posts_have_id)
      as (w' & Hrun & Hfile & Hout & _ & _).
    exists w'. split; [exact Hrun|]. split; [exact Hfile|exact Hout].
  - destruct (delete_removes_and_saves dump load law stored posts 7
                stored_persisted posts_have_id)
      as (w' & Hrun & Hfile & Hout & _ & Hall).
    rewrite (Hall no_post_7) in Hfile, Hout.
    exists w'. split; [exact Hrun|]. split; [exact Hfile|exact Hout].
Defined.

Lemma save_load_idempotent_witness :
  persisted load stored (JList posts) /\
  exists w1 w2,
    save_load dump load stored = (Ok tt, w1) /\
    persisted load w1 (JList posts) /\
    save_load dump load w1 = (Ok tt, w2) /\
    persisted load w2 (JList posts) /\ file w2 = file w1.
Proof.
  split; [exact stored_persisted|].
  exact (save_load_idempotent dump load law stored (JList posts) stored_persisted).
Defined.

Lemma creates_number_from_one_witness :
  persisted load empty (JList []) /\
  Forall (fun req => method req = POST) [form_a; form_b; form_c] /\
  exists w',
    serve dump load [Create form_a; Create form_b; Create form_c] empty
    = (replicate 3 (Ok (Redirect "index")), w') /\
    persisted load w'
      (JList [created 0 form_a; created 1 form_b; created 2 form_c]) /\
    field (created 2 form_c) "id" = Some (JInt 3) /\
    field (created 2 form_c) "likes" = Some (JInt 0).
Proof.
  split; [exact empty_persisted|]. split; [exact forms_post|].
  destruct (creates_number_from_one dump load law empty
              [form_a; form_b; form_c] empty_persisted forms_post)
    as (w' & Hrun & Hw' & Hnth).
  exists w'. split; [exact Hrun|]. split; [exact Hw'|].
  exact (proj2 (Hnth 2 form_c eq_refl)).
Defined.

Lemma update_title_only_witness :
  persisted load stored (JList posts) /\ Forall is_post posts /\
  first_match posts 2 = Some (1, post2) /\
  exists p' w',
    update dump load 2 title_only stored = (Ok (Redirect "index"), w') /\
    persisted load w' (JList [post1; p']) /\
    field p' "title" = Some (JStr "T") /\
    field p' "content" = Some (JStr "b1") /\
    author_of p' = JStr "Anonymous" /\
    field p' "likes" = None /\
    field p' "id" = Some (JInt 2).
Proof.
  split; [exact stored_persisted|]. split; [exact posts_are_posts|].
  split; [reflexivity|].
  destruct (update_title_only dump load law stored posts 2 title_only 1 post2 "T"
              stored_persisted posts_are_posts eq_refl eq_refl eq_refl
              eq_refl eq_refl)
    as (p' & w' & Hrun & Hw' & Ht & Hc & Ha & _ & Hl & Hk & _).
  exists p', w'. split; [exact Hrun|]. split; [exact Hw'|].
  split; [exact Ht|]. split; [exact Hc|]. split; [exact Ha|].
  split; [exact Hl|]. apply Hk; discriminate.
Defined.

Lemma like_increments_witness :
  persisted load stored (JList posts) /\ Forall is_post posts /\
  first_match posts 1 = Some (0, post1) /\
  exists p' w' p'' w'',
    like dump load 1 stored = (Ok (Redirect "index"), w') /\
    persisted load w' (JList [p'; post2]) /\
    field p' "likes" = Some (JInt 1) /\
    like dump load 1 w' = (Ok (Redirect "index"), w'') /\
    persisted load w'' (JList [p''; post2]) /\
    field p'' "likes" = Some (JInt 2).
Proof.
  split; [exact stored_persisted|]. split; [exact posts_are_posts|].
  split; [reflexivity|].
  destruct (like_increments dump load law stored posts 1 0 post1
              stored_persisted posts_are_posts eq_refl)
    as (p' & w' & Hrun & Hw' & Hn & _ & _ & Htwice).
  destruct (Htwice eq_refl) as (p'' & w'' & Hrun' & Hw'' & H2 & _).
  exists p', w', p'', w''.
  split; [exact Hrun|]. split; [exact Hw'|]. split; [exact (Hn 0%Z eq_refl)|].
  split; [exact Hrun'|]. split; [exact Hw''|exact H2].
Defined.

Lemma create_after_delete_repeats_id_witness :
  persisted load empty (JList []) /\
  exists w',
    serve dump load [Create form_a; Create form_b; Delete 1; Create form_c] empty
    = (replicate 4 (Ok (Redirect "index")), w') /\
    persisted load w' (JList [created 1 form_b; created 1 form_c]) /\
    post_id_of (created 1 form_b) = Some 2%Z /\
    post_id_of (created 1 form_c) = Some 2%Z.
Proof.
  split; [exact empty_persisted|].
  destruct (create_after_delete_repeats_id dump load law empty
              form_a form_b form_c empty_persisted eq_refl eq_refl eq_refl)
    as (w' & Hrun & Hw' & Hb & Hc & _).
  exists w'. split; [exact Hrun|]. split; [exact Hw'|]. split; [exact Hb|exact Hc].
Defined.

Lemma ids_distinct_without_delete_witness :
  persisted load empty (JList []) /\
  exists xs,
    persisted load
      (snd (serve dump load
              [Create form_a; Like 1; Update 1 title_only; Create form_b; Like 5]
              empty))
      (JList xs) /\
    numbered xs /\ NoDup (post_id_of <$> xs).
Proof.
  split; [exact empty_persisted|].
  exact (ids_distinct_without_delete dump load law empty
           [Create form_a; Like 1; Update 1 title_only; Create form_b; Like 5]
           empty_persisted eq_refl).
Defined.

Lemma scenario_create_delete_like_witness :
  persisted load empty (JList []) /\
  exists w3 w4,
    serve dump load [Create form_a; Create form_b; Delete 1] empty
    = (replicate 3 (Ok (Redirect "index")), w3) /\
    load_blog_posts load w3 = (Ok (JList [created 1 form_b]), w3) /\
    like dump load 2 w3 = (Ok (Redirect "index"), w4) /\
    load_blog_posts load w4 = (Ok (JList [liked (created 1 form_b)]), w4) /\
    field (liked (created 1 form_b)) "id" = Some (JInt 2) /\
    field (liked (created 1 form_b)) "likes" = Some (JInt 1).
Proof.
  split; [exact empty_persisted|].
  exact (scenario_create_delete_like dump load law empty form_a form_b
           empty_persisted eq_refl eq_refl).
Defined.

Lemma posts_numbered : numbered posts.
Proof.
  intros [|[|n]] p Hn; [injection Hn as <-..|discriminate]; reflexivity.
Defined.


Lemma reads_never_write_witness :
  method get_form = GET /\
  snd (index load stored) = stored /\
  snd (fetch_post_by_id load 1 stored) = stored /\
  snd (add dump load get_form stored) = stored /\
  snd (update dump load 1 get_form stored) = stored.
Proof.
  split; [reflexivity|].
  exact (reads_never_write dump load stored 1 get_form eq_refl).
Defined.

Lemma corrupt_file_fails_every_request_witness :
  file broken = Some "not json" /\ load "not json" = None /\
  index load broken = (Raise JSONDecodeError, broken) /\
  fetch_post_by_id load 1 broken = (Raise JSONDecodeError, broken) /\
  handle dump load (Delete 1) broken = (Raise JSONDecodeError, broken).
Proof.
  split; [reflexivity|]. split; [vm_compute; reflexivity|].
  apply (corrupt_file_fails_every_request dump load broken "not json" (Delete 1) 1).
  - reflexivity.
  - vm_compute. reflexivity.
  - intros req [=].
Defined.

Lemma requests_without_file_witness :
  file empty = None /\
  index load empty = (Ok (Render "index.html" (Some (JList []))), empty) /\
  like dump load 1 empty = (Ok not_found, empty) /\
  delete dump load 1 empty = (Ok (Redirect "index"), saved dump (JList []) empty) /\
  add dump load form_a empty
  = (Ok (Redirect "index"), saved dump (JList [created 0 form_a]) empty).
Proof.
  split; [reflexivity|].
  destruct (requests_without_file dump load empty 1 form_a eq_refl)
    as (Hindex & _ & _ & Hlike & Hdelete & Hadd).
  split; [exact Hindex|]. split; [exact Hlike|]. split; [exact Hdelete|].
  exact (proj1 (Hadd eq_refl)).
Defined.

Lemma create_keeps_ids_distinct_iff_witness :
  persisted load only_post2 (JList [post2]) /\ method form_c = POST /\
  exists w',
    add dump load form_c only_post2 = (Ok (Redirect "index"), w') /\
    persisted load w' (JList [post2; created 1 form_c]) /\
    ~ NoDup (post_id_of <$> [post2; created 1 form_c]).
Proof.
  split; [vm_compute; reflexivity|]. split; [reflexivity|].
  destruct (create_keeps_ids_distinct_iff dump load law only_post2 [post2] form_c)
    as (w' & Hrun & Hw' & Hiff); [vm_compute; reflexivity|reflexivity|].
  exists w'. split; [exact Hrun|]. split; [exact Hw'|].
  intros Hnd. apply Hiff in Hnd as [_ Hfresh].
  apply Forall_cons in Hfresh as [Hfresh _]. by apply Hfresh.
Defined.

Lemma fetch_after_create_witness :
  persisted load stored (JList posts) /\ Forall has_id posts /\
  method form_c = POST /\
  exists w',
    add dump load form_c stored = (Ok (Redirect "index"), w') /\
    fetch_post_by_id load 3 w' = (Ok (Some (created 2 form_c)), w') /\
    field (created 2 form_c) "title" = Some (JStr "C") /\
    field (created 2 form_c) "author" = Some (JStr "Cy").
Proof.
  split; [exact stored_persisted|]. split; [exact posts_have_id|].
  split; [reflexivity|].
  destruct (fetch_after_create dump load law stored posts form_c
              stored_persisted posts_have_id eq_refl)
    as (w' & Hrun & Hnew & _ & Ht & _ & Ha & _).
  exists w'. split; [exact Hrun|]. split; [exact (Hnew eq_refl)|].
  split; [exact Ht|exact Ha].
Defined.

Lemma delete_then_absent_witness :
  persisted load stored (JList posts) /\ Forall has_id posts /\
  exists w' w'',
    delete dump load 1 stored = (Ok (Redirect "index"), w') /\
    persisted load w' (JList [post2]) /\
    fetch_post_by_id load 1 w' = (Ok None, w') /\
    like dump load 1 w' = (Ok not_found, w') /\
    update dump load 1 title_only w' = (Ok not_found, w') /\
    delete dump load 1 w' = (Ok (Redirect "index"), w'') /\
    file w'' = file w'.
Proof.
  split; [exact stored_persisted|]. split; [exact posts_have_id|].
  destruct (delete_then_absent dump load law stored posts 1 title_only
              stored_persisted posts_have_id)
    as (w' & w'' & Hrun & Hw' & _ & Hfetch & Hlike & Hupdate & Hagain & Hfile).
  exists w', w''. split; [exact Hrun|]. split; [exact Hw'|].
  split; [exact Hfetch|]. split; [exact Hlike|]. split; [exact Hupdate|].
  split; [exact Hagain|exact Hfile].
Defined.

Lemma delete_inner_then_create_repeats_id_witness :
  persisted load stored (JList posts) /\ numbered posts /\ 0 < 1 < length posts /\
  method form_c = POST /\
  exists w',
    serve dump load [Delete 1; Create form_c] stored
    = ([Ok (Redirect "index"); Ok (Redirect "index")], w') /\
    persisted load w' (JList [post2; created 1 form_c]) /\
    post_id_of post2 = Some 2%Z /\
    post_id_of (created 1 form_c) = Some 2%Z /\
    ~ NoDup (post_id_of <$> [post2; created 1 form_c]).
Proof.
  split; [exact stored_persisted|]. split; [exact posts_numbered|].
  split; [cbn; lia|]. split; [reflexivity|].
  destruct (delete_inner_then_create_repeats_id dump load law stored posts 1 form_c
              stored_persisted posts_numbered)
    as (w' & ys & q & Hrun & Hw' & -> & _ & _ & _ & Hid & Hnd);
    [cbn; lia|reflexivity|].
  exists w'. split; [exact Hrun|]. split; [exact Hw'|]. split; [reflexivity|].
  split; [exact Hid|exact Hnd].
Defined.

Lemma delete_last_then_create_reuses_id_witness :
  persisted load stored (JList posts) /\ numbered posts /\ 0 < length posts /\
  method form_c = POST /\
  exists w',
    serve dump load [Delete 2; Create form_c] stored
    = ([Ok (Redirect "index"); Ok (Redirect "index")], w') /\
    persisted load w' (JList [post1; created 1 form_c]) /\
    post_id_of (created 1 form_c) = Some 2%Z /\
    numbered [post1; created 1 form_c].
Proof.
  split; [exact stored_persisted|]. split; [exact posts_numbered|].
  split; [cbn; lia|]. split; [reflexivity|].
  exact (delete_last_then_create_reuses_id dump load law stored posts form_c
           stored_persisted posts_numbered ltac:(cbn; lia) eq_refl).
Defined.

Lemma update_then_fetch_witness :
  persisted load stored (JList posts) /\ Forall has_id posts /\
  first_match posts 2 = Some (1, post2) /\
  is_Some (field post2 "title") /\ is_Some (field post2 "content") /\
  method form_c = POST /\
  exists p' w',
    update dump load 2 form_c stored = (Ok (Redirect "index"), w') /\
    persisted load w' (JList [post1; p']) /\
    fetch_post_by_id load 2 w' = (Ok (Some p'), w') /\
    field p' "title" = Some (JStr "C") /\
    field p' "content" = Some (JStr "c1") /\
    field p' "author" = Some (JStr "Cy") /\
    field p' "id" = Some (JInt 2).
Proof.
  split; [exact stored_persisted|]. split; [exact posts_have_id|].
  split; [reflexivity|]. split; [by eexists|]. split; [by eexists|].
  split; [reflexivity|].
  destruct (update_then_fetch dump load law stored posts 2 form_c 1 post2
              stored_persisted posts_have_id eq_refl
              (ex_intro _ _ eq_refl) (ex_intro _ _ eq_refl) eq_refl)
    as (p' & w' & Hrun & Hw' & Hfetch & Ht & Hc & Ha & Hk).
  exists p', w'. split; [exact Hrun|]. split; [exact Hw'|].
  split; [exact Hfetch|]. split; [exact Ht|]. split; [exact Hc|].
  split; [exact Ha|]. apply Hk; discriminate.
Defined.

Lemma update_twice_witness :
  persisted load stored (JList posts) /\ Forall has_id posts /\
  first_match posts 2 = Some (1, post2) /\
  is_Some (field post2 "title") /\ is_Some (field post2 "content") /\
  method title_only = POST /\
  exists v w1 w2,
    update dump load 2 title_only stored = (Ok (Redirect "index"), w1) /\
    persisted load w1 v /\
    update dump load 2 title_only w1 = (Ok (Redirect "index"), w2) /\
    persisted load w2 v /\ file w2 = file w1.
Proof.
  split; [exact stored_persisted|]. split; [exact posts_have_id|].
  split; [reflexivity|]. split; [by eexists|]. split; [by eexists|].
  split; [reflexivity|].
  exact (update_twice dump load law stored posts 2 title_only 1 post2
           stored_persisted posts_have_id eq_refl
           (ex_intro _ _ eq_refl) (ex_intro _ _ eq_refl) eq_refl).
Defined.

Lemma update_missing_key_raises_witness :
  persisted load stored_untitled (JList [post1; untitled]) /\
  Forall has_id [post1; untitled] /\
  first_match [post1; untitled] 3 = Some (1, untitled) /\
  field untitled "title" = None /\
  method form_c = POST /\ method get_form = GET /\
  update dump load 3 form_c stored_untitled = (Raise KeyError, stored_untitled) /\
  update dump load 3 get_form stored_untitled
  = (Ok (Render "update.html" (Some untitled)), stored_untitled).
Proof.
  assert (Hw : persisted load stored_untitled (JList [post1; untitled]))
    by (vm_compute; reflexivity).
  assert (Hids : Forall has_id [post1; untitled])
    by (repeat (constructor; [by eexists|]); constructor).
  split; [exact Hw|]. split; [exact Hids|]. split; [reflexivity|].
  split; [reflexivity|]. split; [reflexivity|]. split; [reflexivity|].
  exact (update_missing_key_raises dump load stored_untitled [post1; untitled] 3
           form_c get_form 1 untitled Hw Hids eq_refl (or_introl eq_refl)
           eq_refl eq_refl).
Defined.

Lemma likes_add_up_witness :
  persisted load stored (JList posts) /\ Forall is_post posts /\
  first_match posts 2 = Some (1, post2) /\
  exists p' w',
    serve dump load [Like 2; Like 2; Like 2] stored
    = (replicate 3 (Ok (Redirect "index")), w') /\
    persisted load w' (JList [post1; p']) /\
    field p' "likes" = Some (JInt 3).
Proof.
  split; [exact stored_persisted|]. split; [exact posts_are_posts|].
  split; [reflexivity|].
  destruct (likes_add_up dump load law stored posts 2 1 post2 3
              stored_persisted posts_are_posts eq_refl)
    as (p' & w' & Hrun & Hw' & _ & Hlikes & _).
  exists p', w'. split; [exact Hrun|]. split; [exact Hw'|].
  apply Hlikes. lia.
Defined.


Lemma record_without_id_after_match_witness :
  persisted load stored_no_id (JList ([post1] ++ post2 :: [] ++ no_id :: [])) /\
  fetch_post_by_id load 2 stored_no_id = (Ok (Some post2), stored_no_id) /\
  like dump load 2 stored_no_id
  = (Ok (Redirect "index"),
     saved dump (JList [post1; liked post2; no_id]) stored_no_id) /\
  delete dump load 1 stored_no_id = (Raise KeyError, stored_no_id).
Proof.
  assert (Hw : persisted load stored_no_id
                 (JList ([post1] ++ post2 :: [] ++ no_id :: [])))
    by (vm_compute; reflexivity).
  split; [exact Hw|].
  apply (record_without_id_after_match dump load stored_no_id [post1] post2 []
           [("title", JStr "E")] [] 2 1 Hw).
  - repeat (constructor; [by eexists|]). constructor.
  - repeat (constructor; [by intros [=]|]). constructor.
  - exact I.
  - reflexivity.
  - constructor.
  - reflexivity.
Defined.


Lemma scalar_file_fails_every_request_witness :
  persisted load scalar (JInt 3) /\
  index load scalar = (Ok (Render "index.html" (Some (JInt 3))), scalar) /\
  fetch_post_by_id load 1 scalar = (Raise TypeError, scalar) /\
  handle dump load (Create form_a) scalar = (Raise TypeError, scalar).
Proof.
  assert (Hw : persisted load scalar (JInt 3)) by (vm_compute; reflexivity).
  split; [exact Hw|].
  apply (scalar_file_fails_every_request dump load scalar (JInt 3) (Create form_a) 1 Hw).
  - right. right. by exists 3%Z.
  - by intros req [= <-].
Defined.

Lemma requests_keep_posts_witness :
  persisted load stored (JList posts) /\ Forall is_post posts /\
  handle dump load (Like 1) stored
  = (Ok (Redirect "index"), saved dump (JList [liked post1; post2]) stored) /\
  exists ys,
    persisted load (saved dump (JList [liked post1; post2]) stored) (JList ys) /\
    Forall is_post ys /\
    length ys = length posts /\ post_id_of <$> ys = post_id_of <$> posts.
Proof.
  assert (Hrun : handle dump load (Like 1) stored
                 = (Ok (Redirect "index"),
                    saved dump (JList [liked post1; post2]) stored))
    by (vm_compute; reflexivity).
  split; [exact stored_persisted|]. split; [exact posts_are_posts|].
  split; [exact Hrun|].
  exact (requests_keep_posts dump load law (Like 1) stored posts _ _
           stored_persisted posts_are_posts Hrun).
Defined.

End Witnesses.
